(** * Whoop access layer: OAuth token lifecycle and paginated retrieval

    A shallow embedding of [whoop_auth.py] (class [WhoopAuth]),
    [whoop_client.py] (class [WhoopClient]) and the [/callback] route of
    [auth_server.py], together with the properties of the authenticated
    API access layer.

    Python values are JSON values ([None] is [JNull]); a [dict] is an
    association list in insertion order.  The methods run in a monad that
    threads the mutable state of the two objects and the token file, and
    that can raise a Python exception.  The outside world is a parameter:
    the answers of the HTTP peer, the readings of the wall clock and the
    ISO-8601 conversions of [datetime].  Output written with [print] is
    not modelled, and JSON numbers are integers. *)

From Stdlib Require Import ZArith List String Bool Lia.
Import ListNotations.
Open Scope string_scope.
Open Scope Z_scope.

Set Implicit Arguments.
Set Warnings "-register-all".

(** ** Python values *)

Inductive json : Type :=
| JNull
| JBool (b : bool)
| JNum (n : Z)
| JStr (s : string)
| JArr (items : list json)
| JObj (fields : list (string * json)).

Definition dict := list (string * json).

(** [k in d] followed by [d[k]], first binding wins. *)
Fixpoint dict_find (V : Type) (k : string) (d : list (string * V)) : option V :=
  match d with
  | [] => None
  | (k', v) :: d' => if String.eqb k k' then Some v else dict_find k d'
  end.

(** [d[k] = v]: an existing key keeps its position. *)
Fixpoint dict_set (V : Type) (k : string) (v : V) (d : list (string * V))
  : list (string * V) :=
  match d with
  | [] => [(k, v)]
  | (k', v') :: d' =>
      if String.eqb k k' then (k', v) :: d' else (k', v') :: dict_set k v d'
  end.

Definition keys (V : Type) (d : list (string * V)) : list string := map fst d.

(** [d.get(k, default)] and [d.get(k)]. *)
Definition dict_get_or (d : dict) (k : string) (default : json) : json :=
  match dict_find k d with
  | Some v => v
  | None => default
  end.

Definition dict_get (d : dict) (k : string) : json := dict_get_or d k JNull.

(** Truth value of an object, as tested by [if v] and [not v]. *)
Definition truthy (v : json) : bool :=
  match v with
  | JNull => false
  | JBool b => b
  | JNum n => negb (n =? 0)
  | JStr s => negb (String.eqb s "")
  | JArr items => negb (Nat.eqb (List.length items) 0)
  | JObj fields => negb (Nat.eqb (List.length fields) 0)
  end.

(** Truth value of an optional string ([None] or a [str]). *)
Definition truthy_str (o : option string) : bool :=
  match o with
  | None => false
  | Some s => negb (String.eqb s "")
  end.

(** [a == b] on optional strings. *)
Definition opt_str_eqb (a b : option string) : bool :=
  match a, b with
  | None, None => true
  | Some x, Some y => String.eqb x y
  | _, _ => false
  end.

(** ** Exceptions

    Every class below derives from [Exception]. *)

Inductive exn : Type :=
| ValueError (msg : string)
| KeyError (key : string)
| AttributeError (msg : string)
| TypeError (msg : string)
| OverflowError (msg : string)
| HTTPError (status : Z)
| RequestException (msg : string)
| JSONDecodeError.

Inductive outcome (A : Type) : Type :=
| Ok (a : A)
| Raise (e : exn)
| Diverge.

Arguments Raise {A} e.
Arguments Diverge {A}.

(** [v.get(k, default)]: only a dict has the method. *)
Definition py_get (v : json) (k : string) (default : json) : outcome json :=
  match v with
  | JObj d => Ok (dict_get_or d k default)
  | _ => Raise (AttributeError "object has no attribute 'get'")
  end.

(** [d[k]] on a dict, and [v[k]] with a string key on any value. *)
Definition subscript (d : dict) (k : string) : outcome json :=
  match dict_find k d with
  | Some v => Ok v
  | None => Raise (KeyError k)
  end.

Definition py_subscript (v : json) (k : string) : outcome json :=
  match v with
  | JObj d => subscript d k
  | _ => Raise (TypeError "indices must be integers, or not subscriptable")
  end.

(** The elements [list.extend(v)] appends: the items of a list, the
    characters of a string, the keys of a dict. *)
Fixpoint chars (s : string) : list json :=
  match s with
  | EmptyString => []
  | String c s' => JStr (String c EmptyString) :: chars s'
  end.

Definition py_iter (v : json) : outcome (list json) :=
  match v with
  | JArr items => Ok items
  | JStr s => Ok (chars s)
  | JObj fields => Ok (map (fun kv => JStr (fst kv)) fields)
  | _ => Raise (TypeError "object is not iterable")
  end.

(** ** datetime

    A naive [datetime] is its number of microseconds since
    0001-01-01T00:00:00, a [timedelta] a number of microseconds. *)

Definition MICROSECONDS : Z := 1000000.
Definition DATETIME_MAX : Z := 3652059 * 86400 * MICROSECONDS - 1.
Definition TIMEDELTA_MAX : Z := (999999999 * 86400 + 86399) * MICROSECONDS + 999999.
Definition TIMEDELTA_MIN : Z := - (999999999 * 86400 * MICROSECONDS).

Definition valid_datetime (t : Z) : Prop := 0 <= t <= DATETIME_MAX.

Definition timedelta_of (us : Z) : outcome Z :=
  if (TIMEDELTA_MIN <=? us) && (us <=? TIMEDELTA_MAX) then Ok us
  else Raise (OverflowError "days out of range for timedelta").

(** [timedelta(seconds=v)]; [bool] is an [int]. *)
Definition timedelta_seconds (v : json) : outcome Z :=
  match v with
  | JNum n => timedelta_of (n * MICROSECONDS)
  | JBool b => timedelta_of ((if b then 1 else 0) * MICROSECONDS)
  | _ => Raise (TypeError "unsupported type for timedelta seconds component")
  end.

Arguments timedelta_seconds v : simpl never.

Definition timedelta_minutes (n : Z) : Z := n * 60 * MICROSECONDS.

(** [t + d] and [t - d]. *)
Definition datetime_add (t d : Z) : outcome Z :=
  if (0 <=? t + d) && (t + d <=? DATETIME_MAX) then Ok (t + d)
  else Raise (OverflowError "date value out of range").

Definition datetime_sub (t d : Z) : outcome Z := datetime_add t (- d).

(** ** HTTP *)

Inductive http_method : Type := GET | POST | DELETE.

(** The header value [f"Bearer {v}"]. *)
Inductive header_value : Type := Bearer (v : json).

Record request : Type := Request {
  req_method : http_method;
  req_url : string;
  req_headers : list (string * header_value);
  req_payload : dict  (* form data of a POST, query parameters of a GET *)
}.

Record response : Type := Response {
  status_code : Z;
  headers : list (string * string);
  body : option json  (* None: the body is not JSON *)
}.

(** What one call of [requests] meets: no answer at all, or a response. *)
Inductive http_outcome : Type :=
| Unreachable (msg : string)
| Answer (r : response).

(** [response.raise_for_status()] *)
Definition raise_for_status (r : response) : outcome unit :=
  if (400 <=? status_code r) && (status_code r <? 600)
  then Raise (HTTPError (status_code r))
  else Ok tt.

(** [response.json()] *)
Definition response_json (r : response) : outcome json :=
  match body r with
  | Some v => Ok v
  | None => Raise JSONDecodeError
  end.

(** ** Configuration and outside world *)

Record config : Type := Config {
  WHOOP_CLIENT_ID : json;
  WHOOP_CLIENT_SECRET : json;
  WHOOP_REDIRECT_URI : json;
  WHOOP_TOKEN_URL : string;
  WHOOP_API_BASE_URL : string
}.

Record environment : Type := Environment {
  cfg : config;
  server : nat -> http_outcome;        (* outcome of the n-th HTTP call *)
  clock : nat -> Z;                    (* n-th reading of datetime.now() *)
  isoformat : Z -> string;             (* datetime.isoformat *)
  fromisoformat : string -> option Z;  (* datetime.fromisoformat *)
  exn_str : exn -> string              (* str(e) *)
}.

(** ** Mutable state *)

Record world : Type := World {
  tokens : dict;                       (* WhoopAuth.tokens *)
  token_file : option json;            (* tokens/whoop_tokens.json, None: no file *)
  rate_limit_remaining : option string;
  rate_limit_reset : option string;
  sent : list request;                 (* HTTP calls issued so far, oldest first *)
  clock_reads : nat
}.

Definition M (A : Type) : Type := world -> outcome A * world.

Definition ret (A : Type) (a : A) : M A := fun w => (Ok a, w).

Definition raise (A : Type) (e : exn) : M A := fun w => (Raise e, w).

Definition diverge (A : Type) : M A := fun w => (Diverge, w).

Definition bind (A B : Type) (m : M A) (k : A -> M B) : M B :=
  fun w =>
    match m w with
    | (Ok a, w') => k a w'
    | (Raise e, w') => (Raise e, w')
    | (Diverge, w') => (Diverge, w')
    end.

(** [try: m  except Exception as e: h e] *)
Definition try_except (A : Type) (m : M A) (h : exn -> M A) : M A :=
  fun w =>
    match m w with
    | (Raise e, w') => h e w'
    | r => r
    end.

Definition lift (A : Type) (o : outcome A) : M A := fun w => (o, w).

Arguments raise {A} e.
Arguments diverge {A}.

Notation "x <- m ;; k" := (bind m (fun x => k))
  (at level 61, m at next level, right associativity).
Notation "m ;;; k" := (bind m (fun _ => k))
  (at level 61, right associativity).

Definition get_tokens : M dict := fun w => (Ok (tokens w), w).

Definition set_tokens (d : dict) : M unit :=
  fun w => (Ok tt, World d (token_file w) (rate_limit_remaining w)
                         (rate_limit_reset w) (sent w) (clock_reads w)).

Definition write_token_file (o : option json) : M unit :=
  fun w => (Ok tt, World (tokens w) o (rate_limit_remaining w)
                         (rate_limit_reset w) (sent w) (clock_reads w)).

Definition set_rate_limits (remaining reset : option string) : M unit :=
  fun w => (Ok tt, World (tokens w) (token_file w) remaining reset
                         (sent w) (clock_reads w)).

(** [if os.path.exists(f): os.remove(f)] *)
Definition remove_token_file : M unit :=
  fun w =>
    match token_file w with
    | Some _ => write_token_file None w
    | None => (Ok tt, w)
    end.

Definition log_request (r : request) (w : world) : world :=
  World (tokens w) (token_file w) (rate_limit_remaining w)
        (rate_limit_reset w) (sent w ++ [r])%list (clock_reads w).

Definition tick (w : world) : world :=
  World (tokens w) (token_file w) (rate_limit_remaining w)
        (rate_limit_reset w) (sent w) (S (clock_reads w)).

(** * The program *)

Section Whoop.

Variable E : environment.

(** [datetime.now()] *)
Definition datetime_now : M Z :=
  fun w => (Ok (clock E (clock_reads w)), tick w).

(** [datetime.fromisoformat(v)] *)
Definition datetime_fromisoformat (v : json) : M Z :=
  match v with
  | JStr s =>
      match fromisoformat E s with
      | Some t => ret t
      | None => raise (ValueError "Invalid isoformat string")
      end
  | _ => raise (TypeError "fromisoformat: argument must be str")
  end.

(** One call of [requests.post], [requests.get] or [requests.delete]. *)
Definition send (r : request) : M response :=
  fun w =>
    match server E (List.length (sent w)) with
    | Unreachable msg => (Raise (RequestException msg), log_request r w)
    | Answer resp => (Ok resp, log_request r w)
    end.

(** ** class WhoopAuth *)

Definition _save_tokens : M unit :=
  toks <- get_tokens ;;
  write_token_file (Some (JObj toks)).

Definition exchange_request (code : json) : request :=
  Request POST (WHOOP_TOKEN_URL (cfg E)) []
    [ ("grant_type", JStr "authorization_code");
      ("code", code);
      ("client_id", WHOOP_CLIENT_ID (cfg E));
      ("client_secret", WHOOP_CLIENT_SECRET (cfg E));
      ("redirect_uri", WHOOP_REDIRECT_URI (cfg E)) ].

Definition exchange_code_for_token (code : json) : M dict :=
  resp <- send (exchange_request code) ;;
  lift (raise_for_status resp) ;;;
  token_data <- lift (response_json resp) ;;
  (* Calculate expiration time *)
  expires_in <- lift (py_get token_data "expires_in" (JNum 3600)) ;;
  now <- datetime_now ;;
  delta <- lift (timedelta_seconds expires_in) ;;
  expiry <- lift (datetime_add now delta) ;;
  let expiry_time := JStr (isoformat E expiry) in
  access_token <- lift (py_subscript token_data "access_token") ;;
  refresh_token <- lift (py_get token_data "refresh_token" JNull) ;;
  token_type <- lift (py_get token_data "token_type" (JStr "Bearer")) ;;
  set_tokens [ ("access_token", access_token);
               ("refresh_token", refresh_token);
               ("expires_at", expiry_time);
               ("token_type", token_type) ] ;;;
  _save_tokens ;;;
  get_tokens.

Definition refresh_request (refresh_token : json) : request :=
  Request POST (WHOOP_TOKEN_URL (cfg E)) []
    [ ("grant_type", JStr "refresh_token");
      ("refresh_token", refresh_token);
      ("client_id", WHOOP_CLIENT_ID (cfg E));
      ("client_secret", WHOOP_CLIENT_SECRET (cfg E)) ].

Definition NO_REFRESH_TOKEN : exn :=
  ValueError "No refresh token available. Please re-authenticate.".

Definition refresh_access_token : M dict :=
  toks <- get_tokens ;;
  if negb (truthy (dict_get toks "refresh_token")) then raise NO_REFRESH_TOKEN
  else
    old_refresh <- lift (subscript toks "refresh_token") ;;
    resp <- send (refresh_request old_refresh) ;;
    lift (raise_for_status resp) ;;;
    token_data <- lift (response_json resp) ;;
    (* Calculate expiration time *)
    expires_in <- lift (py_get token_data "expires_in" (JNum 3600)) ;;
    now <- datetime_now ;;
    delta <- lift (timedelta_seconds expires_in) ;;
    expiry <- lift (datetime_add now delta) ;;
    let expiry_time := JStr (isoformat E expiry) in
    access_token <- lift (py_subscript token_data "access_token") ;;
    toks' <- get_tokens ;;
    carried <- lift (subscript toks' "refresh_token") ;;
    refresh_token <- lift (py_get token_data "refresh_token" carried) ;;
    token_type <- lift (py_get token_data "token_type" (JStr "Bearer")) ;;
    set_tokens [ ("access_token", access_token);
                 ("refresh_token", refresh_token);
                 ("expires_at", expiry_time);
                 ("token_type", token_type) ] ;;;
    _save_tokens ;;;
    get_tokens.

Definition NOT_AUTHENTICATED : exn :=
  ValueError "No access token available. Please authenticate first.".

Definition get_valid_access_token : M json :=
  toks <- get_tokens ;;
  if negb (truthy (dict_get toks "access_token")) then raise NOT_AUTHENTICATED
  else
    (* Check if token is expired or will expire in the next 5 minutes *)
    expires_at <- lift (subscript toks "expires_at") ;;
    expiry <- datetime_fromisoformat expires_at ;;
    now <- datetime_now ;;
    threshold <- lift (datetime_sub expiry (timedelta_minutes 5)) ;;
    (if now >=? threshold
     then refresh_access_token ;;; ret tt
     else ret tt) ;;;
    toks' <- get_tokens ;;
    lift (subscript toks' "access_token").

Definition is_authenticated : M bool :=
  toks <- get_tokens ;;
  ret (truthy (dict_get toks "access_token")
       && truthy (dict_get toks "refresh_token")).

Definition revoke_request (access_token : json) : request :=
  Request DELETE (WHOOP_API_BASE_URL (cfg E) ++ "/v2/user/access")
    [ ("Authorization", Bearer access_token) ] [].

Definition revoke_access : M unit :=
  toks <- get_tokens ;;
  (if truthy (dict_get toks "access_token")
   then try_except
          (access_token <- lift (subscript toks "access_token") ;;
           send (revoke_request access_token) ;;;
           ret tt)
          (fun e => ret tt)
   else ret tt) ;;;
  (* Clear local tokens *)
  set_tokens [] ;;;
  remove_token_file.

(** ** class WhoopClient *)

Definition api_request (endpoint : string) (access_token : json)
    (params : dict) : request :=
  Request GET (WHOOP_API_BASE_URL (cfg E) ++ endpoint)
    [ ("Authorization", Bearer access_token) ] params.

Definition _make_request (endpoint : string) (params : dict) : M json :=
  access_token <- get_valid_access_token ;;
  resp <- send (api_request endpoint access_token params) ;;
  (* Track rate limits *)
  set_rate_limits (dict_find "X-RateLimit-Remaining" (headers resp))
                  (dict_find "X-RateLimit-Reset" (headers resp)) ;;;
  lift (raise_for_status resp) ;;;
  lift (response_json resp).

(** The [while True] loop of [_paginate_request]; [fuel] bounds the number
    of iterations, and running out of it stands for a loop that has not
    ended yet. *)
Fixpoint paginate_loop (fuel : nat) (endpoint : string) (params : dict)
    (all_records : list json) (next_token : json) : M (list json) :=
  match fuel with
  | O => diverge
  | S fuel' =>
      let params :=
        if truthy next_token then dict_set "nextToken" next_token params
        else params in
      resp <- _make_request endpoint params ;;
      (* Handle different response structures *)
      records <- lift (py_get resp "records" (JArr [])) ;;
      let next_page (all_records : list json) : M (list json) :=
        (* Check for next page *)
        next_token <- lift (py_get resp "next_token" JNull) ;;
        if negb (truthy next_token) then ret all_records
        else paginate_loop fuel' endpoint params all_records next_token in
      if negb (truthy records) then
        (* Some endpoints return data directly *)
        match resp with
        | JArr items => ret (all_records ++ items)%list
        | JObj fields =>
            if (0 <? List.length fields)%nat then ret (all_records ++ [resp])%list
            else next_page all_records
        | _ => next_page all_records
        end
      else
        items <- lift (py_iter records) ;;
        next_page (all_records ++ items)%list
  end.

Definition _paginate_request (fuel : nat) (endpoint : string)
    (params : option dict) (limit : Z) : M (list json) :=
  let params := match params with None => [] | Some d => d end in
  let params := dict_set "limit" (JNum (Z.min limit 25)) params in
  paginate_loop fuel endpoint params [] JNull.

Definition date_range (start end_ : string) : option dict :=
  Some [ ("start", JStr start); ("end", JStr end_) ].

Definition get_recovery_data (fuel : nat) (start end_ : string) :=
  _paginate_request fuel "/v2/recovery" (date_range start end_) 25.

Definition get_sleep_data (fuel : nat) (start end_ : string) :=
  _paginate_request fuel "/v2/activity/sleep" (date_range start end_) 25.

Definition get_cycle_data (fuel : nat) (start end_ : string) :=
  _paginate_request fuel "/v2/cycle" (date_range start end_) 25.

Definition get_workout_data (fuel : nat) (start end_ : string) :=
  _paginate_request fuel "/v2/activity/workout" (date_range start end_) 25.

(** [try: data[key] = fetch  except Exception: pass] *)
Definition fetch_into (key : string) (fetch : M (list json)) (data : dict)
  : M dict :=
  try_except (recs <- fetch ;; ret (dict_set key (JArr recs) data))
             (fun e => ret data).

Definition get_all_health_data (fuel : nat) (start end_ : string) : M dict :=
  (* Add time component to dates *)
  let start_dt := start ++ "T00:00:00.000Z" in
  let end_dt := end_ ++ "T23:59:59.999Z" in
  let data := [ ("recovery", JArr []); ("sleep", JArr []);
                ("cycles", JArr []); ("workouts", JArr []) ] in
  data <- fetch_into "recovery" (get_recovery_data fuel start_dt end_dt) data ;;
  data <- fetch_into "sleep" (get_sleep_data fuel start_dt end_dt) data ;;
  data <- fetch_into "cycles" (get_cycle_data fuel start_dt end_dt) data ;;
  data <- fetch_into "workouts" (get_workout_data fuel start_dt end_dt) data ;;
  ret data.

(** ** auth_server.py: the /callback route *)

Inductive flask_response : Type :=
| Text (body : string) (status : Z)
| Redirect (location : string).

Definition INVALID_STATE : flask_response :=
  Text "Error: Invalid state parameter" 400.

(** [f"{o}"] and the value itself, for an optional string. *)
Definition format_opt (o : option string) : string :=
  match o with
  | Some s => s
  | None => "None"
  end.

Definition json_of_opt (o : option string) : json :=
  match o with
  | Some s => JStr s
  | None => JNull
  end.

Definition callback (args session : list (string * string)) : M flask_response :=
  (* Verify state for CSRF protection *)
  let state := dict_find "state" args in
  if negb (opt_str_eqb state (dict_find "oauth_state" session))
  then ret INVALID_STATE
  else
    (* Check for errors *)
    let error := dict_find "error" args in
    if truthy_str error
    then ret (Text ("Error: " ++ format_opt error) 400)
    else
      (* Exchange code for token *)
      let code := dict_find "code" args in
      if negb (truthy_str code)
      then ret (Text "Error: No authorization code received" 400)
      else
        try_except
          (exchange_code_for_token (json_of_opt code) ;;; ret (Redirect "/"))
          (fun e =>
             ret (Text ("Error exchanging code for token: " ++ exn_str E e) 500)).

End Whoop.

(** ** The rest of the three files *)

(** A piece of an f-string: literal text, or a value to be formatted. *)
Inductive fpart : Type :=
| Lit (s : string)
| Fmt (v : json).

(** [sep.join(pieces)] on formatted pieces. *)
Fixpoint join_parts (sep : string) (pieces : list (list fpart)) : list fpart :=
  match pieces with
  | [] => []
  | [p] => p
  | p :: rest => (p ++ Lit sep :: join_parts sep rest)%list
  end.


Section WhoopRest.

Variable E : environment.

(** [WhoopAuth._load_tokens]: the content of the token file, [{}] when
    there is no file. *)
Definition _load_tokens : M json :=
  fun w =>
    match token_file w with
    | Some v => (Ok v, w)
    | None => (Ok (JObj []), w)
    end.

(** [WhoopAuth.generate_auth_url].  [auth_url] is [config.WHOOP_AUTH_URL],
    [scopes] is [config.WHOOP_SCOPES] and [token_urlsafe] is
    [secrets.token_urlsafe]: the text it draws for a number of bytes. *)
Definition generate_auth_url (auth_url : string) (scopes : list string)
    (token_urlsafe : nat -> string) : list fpart * string :=
  let state := token_urlsafe 8%nat in
  let scope := String.concat " " scopes in
  let params :=
    [ ("client_id", WHOOP_CLIENT_ID (cfg E));
      ("redirect_uri", WHOOP_REDIRECT_URI (cfg E));
      ("response_type", JStr "code");
      ("scope", JStr scope);
      ("state", JStr state) ] in
  (Lit auth_url :: Lit "?"
     :: join_parts "&"
          (map (fun kv => [Lit (fst kv); Lit "="; Fmt (snd kv)]) params),
   state).


Definition get_body_measurements : M json :=
  _make_request E "/v2/user/measurement/body" [].

(** auth_server.py, [/login]: the redirect target and the session. *)
Definition login (auth_url : string) (scopes : list string)
    (token_urlsafe : nat -> string) (session : list (string * string))
  : list fpart * list (string * string) :=
  let '(url, state) := generate_auth_url auth_url scopes token_urlsafe in
  (url, dict_set "oauth_state" state session).

(** auth_server.py, [/logout]: the response and the session. *)
Definition logout (session : list (string * string))
  : M (flask_response * list (string * string)) :=
  revoke_access E ;;;
  ret (Redirect "/", []).



End WhoopRest.

(** * Fixtures

    A small configuration, a calendar that knows the instants the examples
    use, and canned peers. *)

Definition demo_cfg : config :=
  Config (JStr "client-id") (JStr "client-secret")
         (JStr "http://localhost:8501")
         "https://api.prod.whoop.com/oauth/oauth2/token"
         "https://api.prod.whoop.com/developer".

(** 2026-11-03T12:00:00 *)
Definition NOON : Z := 63929304000000000.

Definition calendar : list (string * Z) :=
  [ ("2026-11-03T12:00:00", NOON);
    ("2026-11-03T12:58:00", NOON + 58 * 60 * MICROSECONDS);
    ("2026-11-03T13:00:00", NOON + 60 * 60 * MICROSECONDS);
    ("2026-11-03T13:58:00", NOON + 118 * 60 * MICROSECONDS) ].

Definition demo_fromisoformat (s : string) : option Z := dict_find s calendar.

Definition demo_isoformat (t : Z) : string :=
  match find (fun kv => snd kv =? t) calendar with
  | Some kv => fst kv
  | None => "9999-12-31T23:59:59.999999"
  end.

Definition demo_exn_str (e : exn) : string :=
  match e with
  | ValueError msg | AttributeError msg | TypeError msg
  | OverflowError msg | RequestException msg => msg
  | KeyError key => "'" ++ key ++ "'"
  | HTTPError _ => "HTTP Error"
  | JSONDecodeError => "Expecting value"
  end.

Definition demo_env (srv : nat -> http_outcome) (now : Z) : environment :=
  Environment demo_cfg srv (fun _ => now) demo_isoformat demo_fromisoformat
              demo_exn_str.

Definition demo_tokens : dict :=
  [ ("access_token", JStr "AT0");
    ("refresh_token", JStr "RT0");
    ("expires_at", JStr "2026-11-03T13:00:00");
    ("token_type", JStr "Bearer") ].

Definition signed_in : world :=
  World demo_tokens (Some (JObj demo_tokens)) None None [] 0.

Definition signed_out : world := World [] None None None [] 0.

Definition json_answer (status : Z) (v : json) : http_outcome :=
  Answer (Response status [] (Some v)).

Definition grant_omitting_refresh : json :=
  JObj [ ("access_token", JStr "AT1"); ("expires_in", JNum 3600) ].

Definition grant_rotating_refresh : json :=
  JObj [ ("access_token", JStr "AT1"); ("refresh_token", JStr "RT1");
         ("expires_in", JNum 3600); ("token_type", JStr "Bearer") ].

Definition grant_null_refresh : json :=
  JObj [ ("access_token", JStr "AT1"); ("refresh_token", JNull);
         ("expires_in", JNum 3600) ].


Definition peer_down : nat -> http_outcome :=
  fun _ => Unreachable "Connection refused".

(** Before and after the five-minute margin of [demo_tokens]. *)
Definition EARLY : Z := NOON.
Definition LATE : Z := NOON + 58 * 60 * MICROSECONDS.

Definition peer_granting (grant : json) : nat -> http_outcome :=
  fun _ => json_answer 200 grant.

(** The token set and the world a refresh at [LATE] leaves when the grant
    omits the refresh token. *)
Definition renewed_tokens : dict :=
  [ ("access_token", JStr "AT1");
    ("refresh_token", JStr "RT0");
    ("expires_at", JStr "2026-11-03T13:58:00");
    ("token_type", JStr "Bearer") ].

Definition renewed_tokens_null : dict :=
  [ ("access_token", JStr "AT1");
    ("refresh_token", JNull);
    ("expires_at", JStr "2026-11-03T13:58:00");
    ("token_type", JStr "Bearer") ].

Definition refresh_sent : request :=
  Request POST "https://api.prod.whoop.com/oauth/oauth2/token" []
    [ ("grant_type", JStr "refresh_token");
      ("refresh_token", JStr "RT0");
      ("client_id", JStr "client-id");
      ("client_secret", JStr "client-secret") ].

Definition renewed (d : dict) : world :=
  World d (Some (JObj d)) None None [refresh_sent] 1.

(** Records numbered [first], [first + 1], ... *)
Definition numbered (first count : nat) : list json :=
  map (fun i => JObj [ ("id", JNum (Z.of_nat i)) ]) (seq first count).

Definition page_of (records : list json) (next_token : option string) : json :=
  JObj (("records", JArr records)
        :: match next_token with
           | Some t => [ ("next_token", JStr t) ]
           | None => []
           end).

(** Three pages of 25, 25 and 10 records, the last without continuation
    token; nothing behind them. *)
Definition peer_three_pages : nat -> http_outcome :=
  fun n =>
    match n with
    | 0%nat => json_answer 200 (page_of (numbered 0 25) (Some "page-2"))
    | 1%nat => json_answer 200 (page_of (numbered 25 25) (Some "page-3"))
    | 2%nat => json_answer 200 (page_of (numbered 50 10) None)
    | _ => Unreachable "Connection refused"
    end.

Definition three_pages : list (list json) :=
  [ numbered 0 25; numbered 25 25; numbered 50 10 ].

(** Recovery, cycles and workouts answer one page each; sleep answers 500. *)
Definition peer_sleep_failing : nat -> http_outcome :=
  fun n =>
    match n with
    | 0%nat => json_answer 200 (page_of (numbered 0 2) None)
    | 1%nat => json_answer 500 (JObj [ ("error", JStr "internal") ])
    | 2%nat => json_answer 200 (page_of (numbered 10 3) None)
    | 3%nat => json_answer 200 (page_of (numbered 20 1) None)
    | _ => Unreachable "Connection refused"
    end.

(** An endpoint that returns its data directly, as a bare array. *)
Definition peer_bare_array : nat -> http_outcome :=
  fun _ => json_answer 200 (JArr (numbered 0 2)).

(** An endpoint that returns one bare object. *)
Definition peer_bare_object : nat -> http_outcome :=
  fun _ => json_answer 200 (JObj [ ("user_id", JNum 7) ]).

(** * Vocabulary of the properties *)

(** The world a successful grant leaves behind. *)
Definition after_grant (w : world) (rq : request) (d : dict) : world :=
  World d (Some (JObj d)) (rate_limit_remaining w) (rate_limit_reset w)
        (sent w ++ [rq])%list (S (clock_reads w)).





(** The stored access token stays clear of the five-minute margin at
    every reading of the clock, so that no request needs a refresh. *)
Definition stays_fresh (E : environment) (toks : dict) : Prop :=
  truthy (dict_get toks "access_token") = true
  /\ exists s expiry,
      dict_find "expires_at" toks = Some (JStr s)
      /\ fromisoformat E s = Some expiry
      /\ valid_datetime (expiry - timedelta_minutes 5)
      /\ forall n, clock E n < expiry - timedelta_minutes 5.

(** An answer that is a page: a status [raise_for_status] accepts and a
    JSON object with a non-empty [records] array; [next_token] is what the
    object gives as continuation token ([JNull] when it has none). *)
Definition is_page (r : response) (records : list json) (next_token : json)
  : Prop :=
  raise_for_status r = Ok tt
  /\ records <> []
  /\ exists d,
      body r = Some (JObj d)
      /\ dict_find "records" d = Some (JArr records)
      /\ dict_get d "next_token" = next_token.

(** From its [n]-th call on, the peer serves the pages whose records are
    listed: each but the last with a continuation token, the last
    without. *)
Fixpoint serves (E : environment) (n : nat) (pages : list (list json))
  : Prop :=
  match pages with
  | [] => True
  | records :: rest =>
      exists r next_token,
        server E n = Answer r
        /\ is_page r records next_token
        /\ truthy next_token = negb (Nat.eqb (List.length rest) 0)
        /\ serves E (S n) rest
  end.

(** The request is a GET of the endpoint. *)
Definition gets (E : environment) (endpoint : string) (r : request) : Prop :=
  req_method r = GET
  /\ req_url r = WHOOP_API_BASE_URL (cfg E) ++ endpoint.

(** The world after one request made with a fresh token. *)
Definition after_request (w : world) (rq : request) (resp : response)
  : world :=
  World (tokens w) (token_file w)
        (dict_find "X-RateLimit-Remaining" (headers resp))
        (dict_find "X-RateLimit-Reset" (headers resp))
        (sent w ++ [rq])%list (S (clock_reads w)).

(** What [get_all_health_data] keeps of one fetch: its records, or the
    empty list when it raised. *)
Definition caught (o : outcome (list json)) : json :=
  match o with
  | Ok records => JArr records
  | _ => JArr []
  end.

(** Every request [m] sends, from any world and however it ends,
    satisfies [P]. *)
Definition sends_only (P : request -> Prop) (A : Type) (m : M A) : Prop :=
  forall w r w',
    m w = (r, w') ->
    exists l, sent w' = (sent w ++ l)%list /\ Forall P l.

(** From its [n]-th call on, the peer serves the pages listed, every one
    with a continuation token. *)
Fixpoint serves_open (E : environment) (n : nat) (pages : list (list json))
  : Prop :=
  match pages with
  | [] => True
  | records :: rest =>
      exists r next_token,
        server E n = Answer r
        /\ is_page r records next_token
        /\ truthy next_token = true
        /\ serves_open E (S n) rest
  end.

(** A call that makes [_make_request] raise: no answer, or an answer with
    a status [raise_for_status] rejects. *)
Definition fails_request (o : http_outcome) : Prop :=
  match o with
  | Unreachable _ => True
  | Answer r => 400 <= status_code r < 600
  end.

(** The tokens an exchange at [EARLY] leaves when the grant omits the
    refresh token. *)
Definition granted_without_refresh : dict :=
  [ ("access_token", JStr "AT1");
    ("refresh_token", JNull);
    ("expires_at", JStr "2026-11-03T13:00:00");
    ("token_type", JStr "Bearer") ].

Definition exchange_sent : request :=
  Request POST "https://api.prod.whoop.com/oauth/oauth2/token" []
    [ ("grant_type", JStr "authorization_code");
      ("code", JStr "c0de");
      ("client_id", JStr "client-id");
      ("client_secret", JStr "client-secret");
      ("redirect_uri", JStr "http://localhost:8501") ].

Definition exchanged (d : dict) : world :=
  World d (Some (JObj d)) None None [exchange_sent] 1.

(** A token set whose expiry was lost, and one whose expiry is garbled. *)
Definition tokens_without_expiry : dict :=
  [ ("access_token", JStr "AT0"); ("refresh_token", JStr "RT0") ].

Definition tokens_garbled_expiry : dict :=
  [ ("access_token", JStr "AT0"); ("refresh_token", JStr "RT0");
    ("expires_at", JStr "tomorrow") ].

Definition holding (d : dict) : world :=
  World d (Some (JObj d)) None None [] 0.

(** A call of the token endpoint. *)
Definition token_call (E : environment) (rq : request) : Prop :=
  req_method rq = POST /\ req_url rq = WHOOP_TOKEN_URL (cfg E).

(** A GET of [endpoint] whose query agrees with [params] on every key but
    the cursor. *)
Definition page_call (E : environment) (endpoint : string) (params : dict)
    (rq : request) : Prop :=
  req_method rq = GET
  /\ req_url rq = WHOOP_API_BASE_URL (cfg E) ++ endpoint
  /\ forall k, k <> "nextToken" ->
               dict_find k (req_payload rq) = dict_find k params.

(** A GET of one of the four collections over the whole days from
    [start] to [end_], 25 records a page. *)
Definition health_call (E : environment) (start end_ : string) (rq : request)
  : Prop :=
  req_method rq = GET
  /\ In (req_url rq)
        (map (fun endpoint => WHOOP_API_BASE_URL (cfg E) ++ endpoint)
             [ "/v2/recovery"; "/v2/activity/sleep"; "/v2/cycle";
               "/v2/activity/workout" ])
  /\ dict_find "start" (req_payload rq) = Some (JStr (start ++ "T00:00:00.000Z"))
  /\ dict_find "end" (req_payload rq) = Some (JStr (end_ ++ "T23:59:59.999Z"))
  /\ dict_find "limit" (req_payload rq) = Some (JNum 25).


(** A first page that announces a second one, then errors. *)
Definition peer_failing_second_page : nat -> http_outcome :=
  fun n =>
    match n with
    | 0%nat => json_answer 200 (page_of (numbered 0 25) (Some "page-2"))
    | _ => json_answer 500 (JObj [ ("error", JStr "internal") ])
    end.

(** No results in the range: an empty page, and an empty object. *)
Definition peer_empty_page : nat -> http_outcome :=
  fun _ => json_answer 200 (JObj [ ("records", JArr []);
                                   ("next_token", JNull) ]).

Definition peer_empty_object : nat -> http_outcome :=
  fun _ => json_answer 200 (JObj []).

(** The world after the refresh of a request made at [LATE]. *)
Definition renewed_for_request : world :=
  World renewed_tokens (Some (JObj renewed_tokens)) None None
        [refresh_sent] 2.

Definition recovery_range : option dict :=
  date_range "2026-01-01T00:00:00.000Z" "2026-02-10T23:59:59.999Z".

(** * Properties *)

Ltac unfold_monad :=
  unfold bind, try_except, lift, ret, raise, diverge, get_tokens, set_tokens,
    write_token_file, remove_token_file, set_rate_limits, send, datetime_now,
    datetime_fromisoformat, _save_tokens in *.

Ltac run_step :=
  match goal with
  | H : (_, _) = (_, _) |- _ => inversion H; subst; clear H
  | H : Ok _ = Ok _ |- _ => inversion H; subst; clear H
  | H : Some _ = Some _ |- _ => inversion H; subst; clear H
  | H : context [match ?x with _ => _ end] |- _ => destruct x eqn:?
  | |- context [match ?x with _ => _ end] => destruct x eqn:?
  end.

Section Properties.

Variable E : environment.

(** What a successful refresh went through. *)
Lemma refresh_ok_inv (w w' : world) (d : dict) :
  refresh_access_token E w = (Ok d, w') ->
  exists resp token_data access_token delta,
    truthy (dict_get (tokens w) "refresh_token") = true
    /\ server E (List.length (sent w)) = Answer resp
    /\ raise_for_status resp = Ok tt
    /\ body resp = Some (JObj token_data)
    /\ dict_find "access_token" token_data = Some access_token
    /\ timedelta_seconds (dict_get_or token_data "expires_in" (JNum 3600))
       = Ok delta
    /\ valid_datetime (clock E (clock_reads w) + delta)
    /\ d = [ ("access_token", access_token);
             ("refresh_token",
              dict_get_or token_data "refresh_token"
                (dict_get (tokens w) "refresh_token"));
             ("expires_at",
              JStr (isoformat E (clock E (clock_reads w) + delta)));
             ("token_type",
              dict_get_or token_data "token_type" (JStr "Bearer")) ]
    /\ w' = after_grant w
              (refresh_request E (dict_get (tokens w) "refresh_token")) d.
Proof.
  unfold refresh_access_token. unfold_monad.
  unfold subscript, response_json, py_get, py_subscript, subscript,
    datetime_add, dict_get, dict_get_or, after_grant, valid_datetime.
  intros H. simpl in H.
  repeat (run_step; simpl in *; try discriminate).
  all: match goal with
       | Hs : raise_for_status ?r = Ok ?u,
         Hb : body ?r = Some (JObj ?f),
         Ha : dict_find "access_token" ?f = Some ?a,
         Ht : timedelta_seconds _ = Ok ?dl |- _ =>
           exists r, f, a, dl; destruct u
       end.
  all: repeat match goal with
         | H : dict_find _ _ = _ |- _ => rewrite H
         end.
  all: rewrite ?negb_false_iff, ?andb_true_iff, ?Z.leb_le in *.
  all: intuition auto.
Qed.

(** What a successful code exchange went through. *)
Lemma exchange_ok_inv (code : json) (w w' : world) (d : dict) :
  exchange_code_for_token E code w = (Ok d, w') ->
  exists resp token_data access_token delta,
    server E (List.length (sent w)) = Answer resp
    /\ raise_for_status resp = Ok tt
    /\ body resp = Some (JObj token_data)
    /\ dict_find "access_token" token_data = Some access_token
    /\ timedelta_seconds (dict_get_or token_data "expires_in" (JNum 3600))
       = Ok delta
    /\ valid_datetime (clock E (clock_reads w) + delta)
    /\ d = [ ("access_token", access_token);
             ("refresh_token", dict_get token_data "refresh_token");
             ("expires_at",
              JStr (isoformat E (clock E (clock_reads w) + delta)));
             ("token_type",
              dict_get_or token_data "token_type" (JStr "Bearer")) ]
    /\ w' = after_grant w (exchange_request E code) d.
Proof.
  unfold exchange_code_for_token. unfold_monad.
  unfold subscript, response_json, py_get, py_subscript, subscript,
    datetime_add, dict_get, dict_get_or, after_grant, valid_datetime.
  intros H. simpl in H.
  repeat (run_step; simpl in *; try discriminate).
  all: match goal with
       | Hs : raise_for_status ?r = Ok ?u,
         Hb : body ?r = Some (JObj ?f),
         Ha : dict_find "access_token" ?f = Some ?a,
         Ht : timedelta_seconds _ = Ok ?dl |- _ =>
           exists r, f, a, dl; destruct u
       end.
  all: repeat match goal with
         | H : dict_find _ _ = _ |- _ => rewrite H
         end.
  all: rewrite ?negb_false_iff, ?andb_true_iff, ?Z.leb_le in *.
  all: intuition auto.
Qed.




Lemma exchange_terminates (code : json) (w : world) :
  fst (exchange_code_for_token E code w) <> Diverge.
Proof.
  unfold exchange_code_for_token. unfold_monad.
  unfold subscript, response_json, py_get, py_subscript, subscript,
    datetime_add, timedelta_seconds, timedelta_of, raise_for_status.
  simpl.
  repeat (run_step; simpl in *; try discriminate).
Qed.



(** A refresh sends its one request whenever a refresh token is stored,
    however it ends, and none otherwise. *)
Lemma refresh_sends_once (w w' : world) (r : outcome dict) :
  truthy (dict_get (tokens w) "refresh_token") = true ->
  refresh_access_token E w = (r, w') ->
  sent w'
  = (sent w ++ [refresh_request E (dict_get (tokens w) "refresh_token")])%list.
Proof.
  intros Ht. unfold refresh_access_token. unfold_monad.
  unfold subscript, response_json, py_get, py_subscript, subscript,
    datetime_add, dict_get, dict_get_or in *.
  simpl. rewrite Ht. simpl.
  destruct (dict_find "refresh_token" (tokens w)) eqn:Hf; [| discriminate Ht].
  intros H. simpl in H.
  repeat (run_step; simpl in *; try discriminate); reflexivity.
Qed.

Lemma refresh_without_token (w : world) :
  truthy (dict_get (tokens w) "refresh_token") = false ->
  refresh_access_token E w = (Raise NO_REFRESH_TOKEN, w).
Proof.
  intros Ht. unfold refresh_access_token. unfold_monad. simpl.
  rewrite Ht. reflexivity.
Qed.


(** [get_valid_access_token] on a token that is not within five minutes
    of its expiry: no refresh, the stored token is returned. *)
Lemma get_valid_access_token_fresh (w : world) (s : string) (expiry : Z) :
  truthy (dict_get (tokens w) "access_token") = true ->
  dict_find "expires_at" (tokens w) = Some (JStr s) ->
  fromisoformat E s = Some expiry ->
  valid_datetime (expiry - timedelta_minutes 5) ->
  clock E (clock_reads w) < expiry - timedelta_minutes 5 ->
  get_valid_access_token E w
  = (Ok (dict_get (tokens w) "access_token"), tick w).
Proof.
  intros Ht He Hp Hv Hc.
  unfold get_valid_access_token.
  unfold bind at 1. unfold get_tokens at 1. rewrite Ht. cbn [negb].
  unfold bind at 1. unfold lift at 1, subscript at 1. rewrite He.
  unfold bind at 1. unfold datetime_fromisoformat. rewrite Hp.
  unfold ret at 1.
  unfold bind at 1. unfold datetime_now at 1.
  unfold bind at 1. unfold lift at 1, datetime_sub, datetime_add.
  unfold valid_datetime in Hv.
  replace (expiry + - timedelta_minutes 5)
    with (expiry - timedelta_minutes 5) by lia.
  replace ((0 <=? expiry - timedelta_minutes 5)
           && (expiry - timedelta_minutes 5 <=? DATETIME_MAX))
    with true by (symmetry; apply andb_true_iff; split; apply Z.leb_le; lia).
  cbv beta. rewrite Z.geb_leb.
  replace (expiry - timedelta_minutes 5 <=? clock E (clock_reads w))
    with false by (symmetry; apply Z.leb_gt; lia).
  unfold bind, ret, get_tokens, lift, subscript. simpl.
  unfold dict_get, dict_get_or in *.
  destruct (dict_find "access_token" (tokens w)); [reflexivity |].
  discriminate Ht.
Qed.

(** The same within five minutes of the expiry, or after it: one call of
    [refresh_access_token], whose failure propagates, then the access
    token of the renewed token set. *)
Lemma get_valid_access_token_stale (w : world) (s : string) (expiry : Z) :
  truthy (dict_get (tokens w) "access_token") = true ->
  dict_find "expires_at" (tokens w) = Some (JStr s) ->
  fromisoformat E s = Some expiry ->
  valid_datetime (expiry - timedelta_minutes 5) ->
  clock E (clock_reads w) >= expiry - timedelta_minutes 5 ->
  get_valid_access_token E w
  = (refresh_access_token E ;;;
     toks <- get_tokens ;; lift (subscript toks "access_token")) (tick w).
Proof.
  intros Ht He Hp Hv Hc.
  unfold get_valid_access_token.
  unfold bind at 1. unfold get_tokens at 1. rewrite Ht. cbn [negb].
  unfold bind at 1. unfold lift at 1, subscript at 1. rewrite He.
  unfold bind at 1. unfold datetime_fromisoformat. rewrite Hp.
  unfold ret at 1.
  unfold bind at 1. unfold datetime_now at 1.
  unfold bind at 1. unfold lift at 1, datetime_sub, datetime_add.
  unfold valid_datetime in Hv.
  replace (expiry + - timedelta_minutes 5)
    with (expiry - timedelta_minutes 5) by lia.
  replace ((0 <=? expiry - timedelta_minutes 5)
           && (expiry - timedelta_minutes 5 <=? DATETIME_MAX))
    with true by (symmetry; apply andb_true_iff; split; apply Z.leb_le; lia).
  cbv beta. rewrite Z.geb_leb.
  replace (expiry - timedelta_minutes 5 <=? clock E (clock_reads w))
    with true by (symmetry; apply Z.leb_le; lia).
  unfold bind, ret.
  destruct (refresh_access_token E (tick w)) as [[d | e |] w']; reflexivity.
Qed.

(** C1. [get_valid_access_token]:
    - with no access token stored, it raises the not-authenticated error
      and touches nothing;
    - with an access token whose expiry is more than five minutes ahead
      of the clock, it returns the stored token, sends nothing and leaves
      the token set as it is;
    - with an access token within five minutes of its expiry or past it,
      it calls [refresh_access_token] exactly once, propagates its
      failure, and otherwise returns the renewed access token; exactly
      one request goes out, the refresh grant (none when no refresh token
      is stored, and then the call fails).
    The expiry is the stored [expires_at] read by [fromisoformat], and
    five minutes before it must be a date [datetime] can represent. *)
Theorem get_valid_access_token_contract (w : world) :
  (truthy (dict_get (tokens w) "access_token") = false ->
   get_valid_access_token E w = (Raise NOT_AUTHENTICATED, w))
  /\ (forall s expiry,
      truthy (dict_get (tokens w) "access_token") = true ->
      dict_find "expires_at" (tokens w) = Some (JStr s) ->
      fromisoformat E s = Some expiry ->
      valid_datetime (expiry - timedelta_minutes 5) ->
      (clock E (clock_reads w) < expiry - timedelta_minutes 5 ->
       exists w',
         get_valid_access_token E w
         = (Ok (dict_get (tokens w) "access_token"), w')
         /\ sent w' = sent w
         /\ tokens w' = tokens w
         /\ token_file w' = token_file w)
      /\ (clock E (clock_reads w) >= expiry - timedelta_minutes 5 ->
          get_valid_access_token E w
          = (refresh_access_token E ;;;
             toks <- get_tokens ;; lift (subscript toks "access_token"))
              (tick w)
          /\ (forall r w',
              get_valid_access_token E w = (r, w') ->
              if truthy (dict_get (tokens w) "refresh_token")
              then sent w'
                   = (sent w
                      ++ [refresh_request E
                            (dict_get (tokens w) "refresh_token")])%list
              else r = Raise NO_REFRESH_TOKEN /\ sent w' = sent w)
          /\ forall tok w',
              get_valid_access_token E w = (Ok tok, w') ->
              sent w'
              = (sent w
                 ++ [refresh_request E (dict_get (tokens w) "refresh_token")])%list
              /\ dict_find "access_token" (tokens w') = Some tok
              /\ exists resp token_data,
                  server E (List.length (sent w)) = Answer resp
                  /\ body resp = Some (JObj token_data)
                  /\ dict_find "access_token" token_data = Some tok)).
Proof.
  split.
  - intros Ht. unfold get_valid_access_token. unfold_monad. simpl.
    rewrite Ht. reflexivity.
  - intros s expiry Ht He Hp Hv. split.
    + intros Hc. exists (tick w). split; [| repeat split].
      apply get_valid_access_token_fresh with (s := s) (expiry := expiry);
        assumption.
    + intros Hc.
      pose proof (get_valid_access_token_stale w Ht He Hp Hv Hc) as Hg.
      split; [exact Hg |]. split.
      { intros r w' Hrun. rewrite Hg in Hrun. unfold bind at 1 in Hrun.
        destruct (truthy (dict_get (tokens w) "refresh_token")) eqn:Hrt.
        - destruct (refresh_access_token E (tick w)) as [o w1] eqn:Hr.
          apply (refresh_sends_once (tick w) Hrt) in Hr. simpl in Hr.
          destruct o as [d | e |].
          + unfold_monad. destruct (subscript (tokens w1) "access_token");
              inversion Hrun; subst; exact Hr.
          + inversion Hrun; subst; exact Hr.
          + inversion Hrun; subst; exact Hr.
        - rewrite (refresh_without_token (tick w) Hrt) in Hrun.
          inversion Hrun; subst. split; reflexivity. }
      intros tok w' Hok. rewrite Hg in Hok.
      unfold bind at 1 in Hok.
      destruct (refresh_access_token E (tick w)) as [[d | e |] w1] eqn:Hr;
        try discriminate.
      apply refresh_ok_inv in Hr.
      destruct Hr as (resp & td & tok' & delta & _ & Hs & _ & Hb & Ha & _ & _
                      & Hd & Hw1).
      subst w1 d. unfold_monad. unfold subscript in Hok. simpl in Hok.
      inversion Hok; subst tok' w'. simpl.
      split; [reflexivity |]. split; [reflexivity |].
      exists resp, td. auto.
Qed.

(** One request with a fresh token: the token is used as it is, the
    request goes out, and the answer decides the result. *)
Lemma make_request_fresh (endpoint : string) (params : dict) (w : world)
    (resp : response) :
  stays_fresh E (tokens w) ->
  server E (List.length (sent w)) = Answer resp ->
  _make_request E endpoint params w
  = (match raise_for_status resp with
     | Ok _ => response_json resp
     | Raise e => Raise e
     | Diverge => Diverge
     end,
     after_request w
       (api_request E endpoint (dict_get (tokens w) "access_token") params)
       resp).
Proof.
  intros (Ht & s & expiry & He & Hp & Hv & Hc) Hs.
  unfold _make_request. unfold bind at 1.
  rewrite (get_valid_access_token_fresh w Ht He Hp Hv (Hc _)).
  unfold_monad. simpl. rewrite Hs. unfold after_request. simpl.
  destruct (raise_for_status resp); reflexivity.
Qed.

(** The loop over a run of pages: every page is fetched by one GET and
    its records are appended in order. *)
Lemma paginate_loop_pages (endpoint : string) (pages : list (list json)) :
  forall (fuel : nat) (params : dict) (acc : list json) (tok : json)
         (w : world),
    pages <> [] ->
    (List.length pages <= fuel)%nat ->
    stays_fresh E (tokens w) ->
    serves E (List.length (sent w)) pages ->
    exists w' reqs,
      paginate_loop E fuel endpoint params acc tok w
      = (Ok (acc ++ List.concat pages)%list, w')
      /\ tokens w' = tokens w
      /\ token_file w' = token_file w
      /\ sent w' = (sent w ++ reqs)%list
      /\ List.length reqs = List.length pages
      /\ Forall (gets E endpoint) reqs.
Proof.
  induction pages as [| records rest IH]; intros fuel params acc tok w Hne Hfuel Hfresh Hserves.
  - contradiction.
  - destruct fuel as [| fuel]; [simpl in Hfuel; lia |].
    destruct Hserves as (r & next & Hs & (Hst & Hrec & d & Hb & Hd & Hn) & Hnext & Hrest).
    simpl paginate_loop.
    set (params' := if truthy tok then dict_set "nextToken" tok params
                    else params).
    unfold bind at 1.
    rewrite (make_request_fresh endpoint params' w Hfresh Hs).
    rewrite Hst. unfold response_json. rewrite Hb.
    unfold bind at 1. unfold lift at 1, py_get at 1, dict_get_or.
    rewrite Hd.
    assert (Htr : truthy (JArr records) = true).
    { destruct records; [contradiction | reflexivity]. }
    rewrite Htr. cbn [negb].
    unfold bind at 1. unfold lift at 1, py_iter.
    unfold bind at 1. unfold lift at 1, py_get.
    fold (dict_get d "next_token"). rewrite Hn.
    rewrite Hnext.
    destruct rest as [| records' rest'].
    + simpl. unfold ret. do 2 eexists.
      split; [rewrite app_nil_r; reflexivity |].
      simpl. repeat split.
      constructor; [| constructor]. split; reflexivity.
    + cbn [List.length Nat.eqb negb].
      match goal with
      | |- context [paginate_loop E fuel endpoint params' ?a next ?w1] =>
          destruct (IH fuel params' a next w1) as (w' & reqs & Hrun & Htok & Hfile & Hsent & Hlen & Hall)
      end.
      * discriminate.
      * simpl in Hfuel |- *. lia.
      * exact Hfresh.
      * simpl sent. rewrite length_app. simpl.
        replace (List.length (sent w) + 1)%nat with (S (List.length (sent w)))
          by lia.
        exact Hrest.
      * exists w'. eexists. rewrite Hrun.
        split; [simpl; rewrite <- app_assoc; reflexivity |].
        split; [exact Htok |]. split; [exact Hfile |].
        split; [rewrite Hsent; simpl; rewrite <- app_assoc; reflexivity |].
        split; [simpl; rewrite Hlen; reflexivity |].
        constructor; [split; reflexivity | exact Hall].
Qed.

(** C5. When the peer serves a finite run of pages, each with a non-empty
    [records] array and each but the last with a continuation token, and
    the stored token needs no refresh, [_paginate_request] returns the
    records of all pages, pages in the order served and each page in its
    own order, after exactly one GET of the endpoint per page. *)
Theorem paginate_returns_all_pages_in_order
    (endpoint : string) (params : option dict) (limit : Z)
    (pages : list (list json)) (fuel : nat) (w : world) :
  pages <> [] ->
  (List.length pages <= fuel)%nat ->
  stays_fresh E (tokens w) ->
  serves E (List.length (sent w)) pages ->
  exists w' reqs,
    _paginate_request E fuel endpoint params limit w
    = (Ok (List.concat pages), w')
    /\ sent w' = (sent w ++ reqs)%list
    /\ List.length reqs = List.length pages
    /\ Forall (gets E endpoint) reqs.
Proof.
  intros Hne Hfuel Hfresh Hserves.
  unfold _paginate_request.
  match goal with
  | |- context [paginate_loop E fuel endpoint ?p [] JNull w] =>
      destruct (@paginate_loop_pages endpoint pages fuel p [] JNull w
                  Hne Hfuel Hfresh Hserves)
        as (w' & reqs & Hrun & _ & _ & Hsent & Hlen & Hall)
  end.
  exists w', reqs. rewrite Hrun. auto.
Qed.

(** C6. [get_all_health_data] runs the four fetches one after the other.
    No exception escapes it; when the four fetches end, it returns a dict
    with exactly the keys [recovery], [sleep], [cycles] and [workouts], in
    which a fetch that raised left the empty list and every other fetch
    left its records. *)
Theorem get_all_health_data_isolates_failures
    (fuel : nat) (start end_ : string) (w w1 w2 w3 w4 : world)
    (r1 r2 r3 r4 : outcome (list json)) :
  let start_dt := start ++ "T00:00:00.000Z" in
  let end_dt := end_ ++ "T23:59:59.999Z" in
  get_recovery_data E fuel start_dt end_dt w = (r1, w1) ->
  get_sleep_data E fuel start_dt end_dt w1 = (r2, w2) ->
  get_cycle_data E fuel start_dt end_dt w2 = (r3, w3) ->
  get_workout_data E fuel start_dt end_dt w3 = (r4, w4) ->
  (forall e, fst (get_all_health_data E fuel start end_ w) <> Raise e)
  /\ (forall data w',
      get_all_health_data E fuel start end_ w = (Ok data, w') ->
      keys data = ["recovery"; "sleep"; "cycles"; "workouts"])
  /\ (r1 <> Diverge -> r2 <> Diverge -> r3 <> Diverge -> r4 <> Diverge ->
      get_all_health_data E fuel start end_ w
      = (Ok [ ("recovery", caught r1); ("sleep", caught r2);
              ("cycles", caught r3); ("workouts", caught r4) ], w4)).
Proof.
  intros start_dt end_dt H1 H2 H3 H4.
  unfold get_all_health_data, fetch_into.
  fold start_dt end_dt.
  unfold bind, try_except, ret.
  rewrite H1.
  destruct r1 as [l1 | e1 |]; simpl;
    [ rewrite H2; destruct r2 as [l2 | e2 |]; simpl;
      [ rewrite H3; destruct r3 as [l3 | e3 |]; simpl;
        [ rewrite H4; destruct r4 as [l4 | e4 |]; simpl | .. ] | .. ] | .. ].
  all: try (rewrite H2; destruct r2 as [l2 | e2 |]; simpl).
  all: try (rewrite H3; destruct r3 as [l3 | e3 |]; simpl).
  all: try (rewrite H4; destruct r4 as [l4 | e4 |]; simpl).
  all: repeat split; try discriminate; try congruence.
  all: intros data w' Heq; inversion Heq; reflexivity.
Qed.

Lemma opt_str_eqb_eq (a b : option string) :
  opt_str_eqb a b = true <-> a = b.
Proof.
  destruct a as [x |], b as [y |]; simpl; split; intros H;
    try discriminate; try reflexivity.
  - apply String.eqb_eq in H. subst. reflexivity.
  - inversion H. apply String.eqb_refl.
Qed.

(** C9. The callback compares the returned state with the one kept in
    the session before anything else.  When they differ it answers the
    state error (400) and nothing has happened: no exchange, no request.
    When they are equal the state error is not what decides the answer:
    the provider's error, a missing code or the code exchange does.
    Whenever a request went out or the token set changed, the states were
    equal. *)
Theorem callback_checks_state_first
    (args session : list (string * string)) (w : world) :
  let state := dict_find "state" args in
  let expected := dict_find "oauth_state" session in
  let error := dict_find "error" args in
  let code := dict_find "code" args in
  (state <> expected -> callback E args session w = (Ok INVALID_STATE, w))
  /\ (state = expected ->
      callback E args session w
      = if truthy_str error
        then (Ok (Text ("Error: " ++ format_opt error) 400), w)
        else if truthy_str code
        then match exchange_code_for_token E (json_of_opt code) w with
             | (Ok _, w') => (Ok (Redirect "/"), w')
             | (Raise e, w') =>
                 (Ok (Text ("Error exchanging code for token: "
                            ++ exn_str E e) 500), w')
             | (Diverge, w') => (Diverge, w')
             end
        else (Ok (Text "Error: No authorization code received" 400), w))
  /\ (forall r w',
      callback E args session w = (r, w') ->
      sent w' <> sent w \/ tokens w' <> tokens w ->
      state = expected).
Proof.
  intros state expected error code.
  assert (Hdiff : state <> expected ->
                  callback E args session w = (Ok INVALID_STATE, w)).
  { intros Hne. unfold callback. fold state expected.
    destruct (opt_str_eqb state expected) eqn:Heq.
    - apply opt_str_eqb_eq in Heq. contradiction.
    - reflexivity. }
  split; [exact Hdiff |]. split.
  - intros Heq. unfold callback. fold state expected error code.
    apply opt_str_eqb_eq in Heq. rewrite Heq. cbn [negb].
    destruct (truthy_str error); [reflexivity |].
    destruct (truthy_str code); cbn [negb]; [| reflexivity].
    unfold try_except, bind, ret.
    destruct (exchange_code_for_token E (json_of_opt code) w)
      as [[d | e |] w']; reflexivity.
  - intros r w' Hrun Hchanged.
    destruct (opt_str_eqb state expected) eqn:Heq.
    + apply opt_str_eqb_eq. exact Heq.
    + exfalso.
      assert (Hne : state <> expected).
      { intros Habs. apply opt_str_eqb_eq in Habs. congruence. }
      rewrite (Hdiff Hne) in Hrun. inversion Hrun; subst.
      destruct Hchanged as [Hc | Hc]; apply Hc; reflexivity.
Qed.

(** C8. A bare JSON array is not returned as the result: the loop looks
    up [records] with [get] before it tests whether the response is a
    list, a list has no [get], and [_paginate_request] raises
    [AttributeError] after its first request instead of returning the
    elements of the array.  The branch written for a list is never
    reached. *)
Theorem paginate_bare_array_raises
    (fuel : nat) (endpoint : string) (params : option dict) (limit : Z)
    (w : world) (resp : response) (items : list json) :
  stays_fresh E (tokens w) ->
  server E (List.length (sent w)) = Answer resp ->
  raise_for_status resp = Ok tt ->
  body resp = Some (JArr items) ->
  exists w',
    _paginate_request E (S fuel) endpoint params limit w
    = (Raise (AttributeError "object has no attribute 'get'"), w')
    /\ List.length (sent w') = S (List.length (sent w)).
Proof.
  intros Hfresh Hs Hst Hb.
  unfold _paginate_request. simpl paginate_loop.
  unfold bind at 1.
  rewrite (make_request_fresh endpoint _ w Hfresh Hs).
  rewrite Hst. unfold response_json. rewrite Hb.
  unfold bind, lift, py_get. eexists. split; [reflexivity |].
  simpl. rewrite length_app. simpl. lia.
Qed.

(** A non-empty object without a non-empty [records] array is returned
    as the single record of the result, after one request. *)
Lemma paginate_bare_object_single_record
    (fuel : nat) (endpoint : string) (params : option dict) (limit : Z)
    (w : world) (resp : response) (d : dict) :
  stays_fresh E (tokens w) ->
  server E (List.length (sent w)) = Answer resp ->
  raise_for_status resp = Ok tt ->
  body resp = Some (JObj d) ->
  d <> [] ->
  truthy (dict_get_or d "records" (JArr [])) = false ->
  exists w',
    _paginate_request E (S fuel) endpoint params limit w
    = (Ok [JObj d], w')
    /\ List.length (sent w') = S (List.length (sent w)).
Proof.
  intros Hfresh Hs Hst Hb Hne Hrec.
  unfold _paginate_request. simpl paginate_loop.
  unfold bind at 1.
  rewrite (make_request_fresh endpoint _ w Hfresh Hs).
  rewrite Hst. unfold response_json. rewrite Hb.
  unfold bind at 1. unfold lift at 1, py_get at 1.
  rewrite Hrec. cbn [negb].
  destruct d as [| kv d']; [contradiction |].
  simpl. unfold ret. eexists. split; [reflexivity |].
  simpl. rewrite length_app. simpl. lia.
Qed.


(** C2. A successful refresh overwrites [access_token], [expires_at] and
    [token_type] from the answer of the token endpoint ([expires_at] is
    the clock reading plus the answer's [expires_in], one hour when it
    gives none; [token_type] is [Bearer] when it gives none), saves the
    result, and takes [refresh_token] from the answer only when the answer
    has one: an answer without the key keeps the stored refresh token. *)
Theorem refresh_overwrites_from_answer (w w' : world) (d : dict) :
  refresh_access_token E w = (Ok d, w') ->
  exists resp token_data delta,
    server E (List.length (sent w)) = Answer resp
    /\ body resp = Some (JObj token_data)
    /\ tokens w' = d
    /\ token_file w' = Some (JObj d)
    /\ keys d = ["access_token"; "refresh_token"; "expires_at"; "token_type"]
    /\ dict_find "access_token" d = dict_find "access_token" token_data
    /\ timedelta_seconds (dict_get_or token_data "expires_in" (JNum 3600))
       = Ok delta
    /\ dict_find "expires_at" d
       = Some (JStr (isoformat E (clock E (clock_reads w) + delta)))
    /\ dict_find "token_type" d
       = Some (dict_get_or token_data "token_type" (JStr "Bearer"))
    /\ (dict_find "refresh_token" token_data = None ->
        dict_find "refresh_token" d = dict_find "refresh_token" (tokens w))
    /\ (forall v, dict_find "refresh_token" token_data = Some v ->
        dict_find "refresh_token" d = Some v).
Proof.
  intros Hx. apply refresh_ok_inv in Hx.
  destruct Hx as (resp & td & tok & delta & Ht & Hs & _ & Hb & Ha & Hd & _
                  & Hdict & Hw').
  exists resp, td, delta. subst w' d. simpl.
  repeat split; auto.
  - intros Hnone. unfold dict_get_or, dict_get, dict_get_or in *.
    rewrite Hnone.
    destruct (dict_find "refresh_token" (tokens w)); [reflexivity |].
    discriminate Ht.
  - intros v Hsome. unfold dict_get_or. rewrite Hsome. reflexivity.
Qed.

(** C10. A successful refresh whose answer maps [refresh_token] to null
    stores null: the key is present, so the stored refresh token is not
    carried over, and the token that made the refresh possible is gone
    from the token set and from the file. *)
Theorem refresh_null_erases_refresh_token
    (w w' : world) (d : dict) (resp : response) (token_data : dict) :
  server E (List.length (sent w)) = Answer resp ->
  body resp = Some (JObj token_data) ->
  dict_find "refresh_token" token_data = Some JNull ->
  refresh_access_token E w = (Ok d, w') ->
  truthy (dict_get (tokens w) "refresh_token") = true
  /\ dict_find "refresh_token" (tokens w') = Some JNull
  /\ exists saved, token_file w' = Some (JObj saved)
                   /\ dict_find "refresh_token" saved = Some JNull.
Proof.
  intros Hs Hb Hnull Hx. apply refresh_ok_inv in Hx.
  destruct Hx as (resp' & td & tok & delta & Ht & Hs' & _ & Hb' & _ & _ & _
                  & Hdict & Hw').
  rewrite Hs in Hs'. inversion Hs'; subst resp'.
  rewrite Hb in Hb'. inversion Hb'; subst td.
  subst w' d. simpl. unfold dict_get_or. rewrite Hnull.
  split; [exact Ht |]. split; [reflexivity |].
  eexists. split; reflexivity.
Qed.

(** The world [revoke_access] ends in. *)
Lemma revoke_access_cleared (w : world) :
  exists w',
    revoke_access E w = (Ok tt, w')
    /\ tokens w' = []
    /\ token_file w' = None.
Proof.
  unfold revoke_access, bind, try_except, get_tokens, set_tokens,
    remove_token_file, write_token_file, lift, ret, send, subscript.
  simpl.
  repeat (run_step; simpl in *); eauto; try discriminate.
Qed.

(** C4. [revoke_access] always returns normally, whatever the revocation
    call met (an answer of any status, or no answer at all), and leaves the
    in-memory token set empty and the token file removed. *)
Theorem revoke_access_always_clears (w : world) :
  exists w',
    revoke_access E w = (Ok tt, w')
    /\ tokens w' = []
    /\ token_file w' = None.
Proof.
  unfold revoke_access, bind, try_except, get_tokens, set_tokens,
    remove_token_file, write_token_file, lift, ret, send, subscript.
  simpl.
  repeat (run_step; simpl in *); eauto; try discriminate.
Qed.

End Properties.

(** * The properties on the fixtures *)

Lemma demo_tokens_stay_fresh (srv : nat -> http_outcome) :
  stays_fresh (demo_env srv EARLY) (tokens signed_in).
Proof.
  split; [reflexivity |].
  exists "2026-11-03T13:00:00", (NOON + 60 * 60 * MICROSECONDS).
  split; [reflexivity |]. split; [reflexivity |].
  split; [split; discriminate | intros n; reflexivity].
Defined.

(** Signed out: the not-authenticated error.  Signed in at noon with a
    token good until 13:00: the stored token, nothing sent.  At 12:58:
    one refresh, then the renewed token. *)
Lemma get_valid_access_token_contract_witness :
  get_valid_access_token (demo_env peer_down EARLY) signed_out
  = (Raise NOT_AUTHENTICATED, signed_out)
  /\ (exists w',
        get_valid_access_token (demo_env peer_down EARLY) signed_in
        = (Ok (JStr "AT0"), w')
        /\ sent w' = []
        /\ tokens w' = demo_tokens
        /\ token_file w' = Some (JObj demo_tokens))
  /\ (forall tok w',
        get_valid_access_token
          (demo_env (peer_granting grant_omitting_refresh) LATE) signed_in
        = (Ok tok, w') ->
        sent w' = [refresh_sent]
        /\ dict_find "access_token" (tokens w') = Some tok
        /\ exists resp token_data,
            json_answer 200 grant_omitting_refresh = Answer resp
            /\ body resp = Some (JObj token_data)
            /\ dict_find "access_token" token_data = Some tok).
Proof.
  split; [| split].
  - exact (proj1 (get_valid_access_token_contract
                    (demo_env peer_down EARLY) signed_out) eq_refl).
  - refine (proj1 (proj2 (get_valid_access_token_contract
                            (demo_env peer_down EARLY) signed_in)
                     "2026-11-03T13:00:00" (NOON + 60 * 60 * MICROSECONDS)
                     eq_refl eq_refl eq_refl _) _).
    + split; discriminate.
    + reflexivity.
  - refine (proj2 (proj2 (proj2 (proj2 (get_valid_access_token_contract
                     (demo_env (peer_granting grant_omitting_refresh) LATE)
                     signed_in)
                     "2026-11-03T13:00:00" (NOON + 60 * 60 * MICROSECONDS)
                     eq_refl eq_refl eq_refl _) _))).
    + split; discriminate.
    + discriminate.
Defined.

(** The refresh at 12:58 against a grant without [refresh_token] keeps
    RT0. *)
Lemma refresh_overwrites_from_answer_witness :
  refresh_access_token
    (demo_env (peer_granting grant_omitting_refresh) LATE) signed_in
  = (Ok renewed_tokens, renewed renewed_tokens)
  /\ exists resp token_data delta,
      json_answer 200 grant_omitting_refresh = Answer resp
      /\ body resp = Some (JObj token_data)
      /\ renewed_tokens = renewed_tokens
      /\ Some (JObj renewed_tokens) = Some (JObj renewed_tokens)
      /\ keys renewed_tokens
         = ["access_token"; "refresh_token"; "expires_at"; "token_type"]
      /\ dict_find "access_token" renewed_tokens
         = dict_find "access_token" token_data
      /\ timedelta_seconds (dict_get_or token_data "expires_in" (JNum 3600))
         = Ok delta
      /\ dict_find "expires_at" renewed_tokens
         = Some (JStr (demo_isoformat (LATE + delta)))
      /\ dict_find "token_type" renewed_tokens
         = Some (dict_get_or token_data "token_type" (JStr "Bearer"))
      /\ (dict_find "refresh_token" token_data = None ->
          dict_find "refresh_token" renewed_tokens
          = dict_find "refresh_token" demo_tokens)
      /\ (forall v, dict_find "refresh_token" token_data = Some v ->
          dict_find "refresh_token" renewed_tokens = Some v).
Proof.
  split; [reflexivity |].
  exact (@refresh_overwrites_from_answer
           (demo_env (peer_granting grant_omitting_refresh) LATE)
           signed_in (renewed renewed_tokens) renewed_tokens eq_refl).
Defined.


(** The fixture of the specification: pages of 25, 25 and 10 records give
    the 60 records in order, from three requests. *)
Lemma paginate_returns_all_pages_in_order_witness :
  exists w' reqs,
    _paginate_request (demo_env peer_three_pages EARLY) 3 "/v2/recovery"
      (date_range "2026-01-01T00:00:00.000Z" "2026-02-10T23:59:59.999Z") 25
      signed_in
    = (Ok (List.concat three_pages), w')
    /\ sent w' = ([] ++ reqs)%list
    /\ List.length reqs = 3%nat
    /\ Forall (gets (demo_env peer_three_pages EARLY) "/v2/recovery") reqs.
Proof.
  refine (@paginate_returns_all_pages_in_order
            (demo_env peer_three_pages EARLY) "/v2/recovery" _ 25
            three_pages 3 signed_in _ _ _ _).
  - discriminate.
  - apply le_n.
  - apply demo_tokens_stay_fresh.
  - simpl.
    exists (Response 200 [] (Some (page_of (numbered 0 25) (Some "page-2")))),
           (JStr "page-2").
    split; [reflexivity |].
    split; [split; [reflexivity | split; [discriminate |]];
            eexists; split; [reflexivity | split; reflexivity] |].
    split; [reflexivity |].
    exists (Response 200 [] (Some (page_of (numbered 25 25) (Some "page-3")))),
           (JStr "page-3").
    split; [reflexivity |].
    split; [split; [reflexivity | split; [discriminate |]];
            eexists; split; [reflexivity | split; reflexivity] |].
    split; [reflexivity |].
    exists (Response 200 [] (Some (page_of (numbered 50 10) None))), JNull.
    split; [reflexivity |].
    split; [split; [reflexivity | split; [discriminate |]];
            eexists; split; [reflexivity | split; reflexivity] |].
    split; [reflexivity | exact I].
Defined.

(** An endpoint answering the bare array of two records. *)
Lemma paginate_bare_array_raises_witness :
  exists w',
    _paginate_request (demo_env peer_bare_array EARLY) 1 "/v2/recovery"
      (date_range "2026-01-01T00:00:00.000Z" "2026-02-10T23:59:59.999Z") 25
      signed_in
    = (Raise (AttributeError "object has no attribute 'get'"), w')
    /\ List.length (sent w') = 1%nat.
Proof.
  exact (@paginate_bare_array_raises (demo_env peer_bare_array EARLY)
           0 "/v2/recovery"
           (date_range "2026-01-01T00:00:00.000Z" "2026-02-10T23:59:59.999Z")
           25 signed_in (Response 200 [] (Some (JArr (numbered 0 2))))
           (numbered 0 2)
           (demo_tokens_stay_fresh peer_bare_array) eq_refl eq_refl eq_refl).
Defined.

(** The bare object of the other degenerate shape comes back as the one
    record of the result. *)
Example paginate_bare_object_example :
  fst (_paginate_request (demo_env peer_bare_object EARLY) 1 "/v2/recovery"
         (date_range "2026-01-01T00:00:00.000Z" "2026-02-10T23:59:59.999Z")
         25 signed_in)
  = Ok [JObj [ ("user_id", JNum 7) ]].
Proof. reflexivity. Qed.

(** The fixture of the specification: the sleep fetch fails with HTTP 500,
    the other three keep their records. *)
Lemma get_all_health_data_isolates_failures_witness :
  get_all_health_data (demo_env peer_sleep_failing EARLY) 1
    "2026-01-01" "2026-02-10" signed_in
  = (Ok [ ("recovery", JArr (numbered 0 2)); ("sleep", JArr []);
          ("cycles", JArr (numbered 10 3));
          ("workouts", JArr (numbered 20 1)) ],
     snd (get_all_health_data (demo_env peer_sleep_failing EARLY) 1
            "2026-01-01" "2026-02-10" signed_in)).
Proof.
  pose (E := demo_env peer_sleep_failing EARLY).
  pose (s := "2026-01-01T00:00:00.000Z").
  pose (e := "2026-02-10T23:59:59.999Z").
  pose (w1 := snd (get_recovery_data E 1 s e signed_in)).
  pose (w2 := snd (get_sleep_data E 1 s e w1)).
  pose (w3 := snd (get_cycle_data E 1 s e w2)).
  pose (w4 := snd (get_workout_data E 1 s e w3)).
  refine (proj2 (proj2 (@get_all_health_data_isolates_failures E 1
            "2026-01-01" "2026-02-10" signed_in w1 w2 w3 w4
            (Ok (numbered 0 2)) (Raise (HTTPError 500))
            (Ok (numbered 10 3)) (Ok (numbered 20 1))
            eq_refl eq_refl eq_refl eq_refl)) _ _ _ _); discriminate.
Defined.


(** The state of the session is "abc": a callback returning "abd" is
    refused before anything is sent; one returning "abc" is exchanged. *)
Lemma callback_checks_state_first_witness :
  callback (demo_env (peer_granting grant_rotating_refresh) EARLY)
    [ ("state", "abd"); ("code", "c0de") ] [ ("oauth_state", "abc") ]
    signed_out
  = (Ok INVALID_STATE, signed_out)
  /\ fst (callback (demo_env (peer_granting grant_rotating_refresh) EARLY)
            [ ("state", "abc"); ("code", "c0de") ] [ ("oauth_state", "abc") ]
            signed_out)
     = Ok (Redirect "/").
Proof.
  split.
  - refine (proj1 (@callback_checks_state_first
                     (demo_env (peer_granting grant_rotating_refresh) EARLY)
                     [ ("state", "abd"); ("code", "c0de") ]
                     [ ("oauth_state", "abc") ] signed_out) _).
    discriminate.
  - rewrite (proj1 (proj2 (@callback_checks_state_first
                     (demo_env (peer_granting grant_rotating_refresh) EARLY)
                     [ ("state", "abc"); ("code", "c0de") ]
                     [ ("oauth_state", "abc") ] signed_out)) eq_refl).
    reflexivity.
Defined.

(** The refresh at 12:58 against a grant with [refresh_token] null: RT0 is
    replaced by null. *)
Lemma refresh_null_erases_refresh_token_witness :
  truthy (dict_get demo_tokens "refresh_token") = true
  /\ dict_find "refresh_token" (tokens (renewed renewed_tokens_null))
     = Some JNull
  /\ exists saved,
      token_file (renewed renewed_tokens_null) = Some (JObj saved)
      /\ dict_find "refresh_token" saved = Some JNull.
Proof.
  exact (@refresh_null_erases_refresh_token
           (demo_env (peer_granting grant_null_refresh) LATE)
           signed_in (renewed renewed_tokens_null) renewed_tokens_null
           (Response 200 [] (Some grant_null_refresh))
           [ ("access_token", JStr "AT1"); ("refresh_token", JNull);
             ("expires_in", JNum 3600) ]
           eq_refl eq_refl eq_refl eq_refl).
Defined.

(** * Further properties of the three files *)

Section MoreProperties.

Variable E : environment.

(** X1. A code exchange that returns has replaced the whole token set by
    what the answer gives, saved it, and sent one request, the
    authorization-code grant.  Nothing of the previous token set survives:
    [refresh_token] is the answer's, and null when the answer has none. *)
Theorem exchange_replaces_token_set (code : json) (w w' : world) (d : dict) :
  exchange_code_for_token E code w = (Ok d, w') ->
  exists resp token_data delta,
    server E (List.length (sent w)) = Answer resp
    /\ body resp = Some (JObj token_data)
    /\ tokens w' = d
    /\ token_file w' = Some (JObj d)
    /\ sent w' = (sent w ++ [exchange_request E code])%list
    /\ keys d = ["access_token"; "refresh_token"; "expires_at"; "token_type"]
    /\ dict_find "access_token" d = dict_find "access_token" token_data
    /\ timedelta_seconds (dict_get_or token_data "expires_in" (JNum 3600))
       = Ok delta
    /\ dict_find "expires_at" d
       = Some (JStr (isoformat E (clock E (clock_reads w) + delta)))
    /\ dict_find "token_type" d
       = Some (dict_get_or token_data "token_type" (JStr "Bearer"))
    /\ dict_find "refresh_token" d
       = Some (dict_get token_data "refresh_token").
Proof.
  intros Hx. apply exchange_ok_inv in Hx.
  destruct Hx as (resp & td & tok & delta & Hs & _ & Hb & Ha & Hd & _
                  & Hdict & Hw').
  exists resp, td, delta. subst w' d. simpl.
  repeat split; auto.
Qed.

(** X2. What the writers leave in the token file is what they leave in
    memory: after a code exchange or a refresh that returned,
    [_load_tokens] gives back the very token set of the object, and after
    [revoke_access] it gives the empty dict. *)
Theorem writers_save_what_they_hold (w w' : world) :
  (forall code d,
      exchange_code_for_token E code w = (Ok d, w') ->
      _load_tokens w' = (Ok (JObj (tokens w')), w'))
  /\ (forall d,
      refresh_access_token E w = (Ok d, w') ->
      _load_tokens w' = (Ok (JObj (tokens w')), w'))
  /\ (revoke_access E w = (Ok tt, w') ->
      _load_tokens w' = (Ok (JObj (tokens w')), w') /\ tokens w' = []).
Proof.
  split; [| split].
  - intros code d Hx. apply exchange_ok_inv in Hx.
    destruct Hx as (resp & td & tok & delta & _ & _ & _ & _ & _ & _ & _ & Hw').
    subst w'. reflexivity.
  - intros d Hx. apply refresh_ok_inv in Hx.
    destruct Hx as (resp & td & tok & delta & _ & _ & _ & _ & _ & _ & _ & _
                    & Hw').
    subst w'. reflexivity.
  - intros Hx.
    destruct (revoke_access_cleared E w) as (w1 & Hrun & Ht & Hf).
    rewrite Hrun in Hx. inversion Hx; subst w1.
    unfold _load_tokens. rewrite Hf, Ht. split; reflexivity.
Qed.

(** X3. After a code exchange whose answer has no usable refresh token
    (none, null or empty), the object does not count as authenticated and
    cannot renew its token: [refresh_access_token] raises without sending
    anything. *)
Theorem grant_without_refresh_token_cannot_renew
    (code : json) (w w' : world) (d : dict) (resp : response)
    (token_data : dict) :
  exchange_code_for_token E code w = (Ok d, w') ->
  server E (List.length (sent w)) = Answer resp ->
  body resp = Some (JObj token_data) ->
  truthy (dict_get token_data "refresh_token") = false ->
  is_authenticated w' = (Ok false, w')
  /\ refresh_access_token E w' = (Raise NO_REFRESH_TOKEN, w').
Proof.
  intros Hx Hs Hb Hrt. apply exchange_ok_inv in Hx.
  destruct Hx as (resp' & td & tok & delta & Hs' & _ & Hb' & _ & _ & _
                  & Hdict & Hw').
  rewrite Hs in Hs'. inversion Hs'; subst resp'.
  rewrite Hb in Hb'. inversion Hb'; subst td.
  assert (Hstored : truthy (dict_get (tokens w') "refresh_token") = false).
  { subst w' d. exact Hrt. }
  split.
  - unfold is_authenticated. unfold_monad. rewrite Hstored.
    rewrite andb_false_r. reflexivity.
  - apply refresh_without_token. exact Hstored.
Qed.

(** X4. A stored access token without a readable expiry makes every call
    fail before anything is sent: [get_valid_access_token] raises
    [KeyError] when [expires_at] is missing and [ValueError] when
    [fromisoformat] rejects it, [_make_request] raises the same, and no
    refresh is tried; the world is as it was. *)
Theorem unreadable_expiry_fails_before_any_request (w : world) :
  truthy (dict_get (tokens w) "access_token") = true ->
  (dict_find "expires_at" (tokens w) = None ->
   get_valid_access_token E w = (Raise (KeyError "expires_at"), w)
   /\ forall endpoint params,
       _make_request E endpoint params w
       = (Raise (KeyError "expires_at"), w))
  /\ (forall s,
      dict_find "expires_at" (tokens w) = Some (JStr s) ->
      fromisoformat E s = None ->
      exists msg,
        get_valid_access_token E w = (Raise (ValueError msg), w)
        /\ forall endpoint params,
            _make_request E endpoint params w = (Raise (ValueError msg), w)).
Proof.
  intros Ht. split.
  - intros He.
    assert (Hg : get_valid_access_token E w
                 = (Raise (KeyError "expires_at"), w)).
    { unfold get_valid_access_token. unfold_monad. unfold subscript.
      simpl. rewrite Ht, He. reflexivity. }
    split; [exact Hg |].
    intros endpoint params. unfold _make_request. unfold bind at 1.
    rewrite Hg. reflexivity.
  - intros s He Hp. eexists.
    assert (Hg : get_valid_access_token E w
                 = (Raise (ValueError "Invalid isoformat string"), w)).
    { unfold get_valid_access_token. unfold_monad. unfold subscript.
      simpl. rewrite Ht, He. simpl. rewrite Hp. reflexivity. }
    split; [exact Hg |].
    intros endpoint params. unfold _make_request. unfold bind at 1.
    rewrite Hg. reflexivity.
Qed.

(** X5. After [revoke_access] the object is signed out for every later
    call: [is_authenticated] answers false, and [get_valid_access_token]
    and [_make_request] raise the not-authenticated error without sending
    anything. *)
Theorem revoked_is_signed_out (w w' : world) :
  revoke_access E w = (Ok tt, w') ->
  is_authenticated w' = (Ok false, w')
  /\ get_valid_access_token E w' = (Raise NOT_AUTHENTICATED, w')
  /\ forall endpoint params,
      _make_request E endpoint params w' = (Raise NOT_AUTHENTICATED, w').
Proof.
  intros Hx.
  destruct (revoke_access_cleared E w) as (w1 & Hrun & Ht & _).
  rewrite Hrun in Hx. inversion Hx; subst w1.
  assert (Hg : get_valid_access_token E w' = (Raise NOT_AUTHENTICATED, w')).
  { unfold get_valid_access_token. unfold_monad. rewrite Ht. reflexivity. }
  split; [| split].
  - unfold is_authenticated. unfold_monad. rewrite Ht. reflexivity.
  - exact Hg.
  - intros endpoint params. unfold _make_request. unfold bind at 1.
    rewrite Hg. reflexivity.
Qed.

(** *** What goes on the wire *)

Lemma dict_find_set_same (V : Type) (k : string) (v : V)
    (d : list (string * V)) :
  dict_find k (dict_set k v d) = Some v.
Proof.
  induction d as [| [k' v'] d IH]; simpl.
  - rewrite String.eqb_refl. reflexivity.
  - destruct (String.eqb k k') eqn:Hk; simpl; rewrite Hk.
    + reflexivity.
    + exact IH.
Qed.

Lemma dict_find_set_other (V : Type) (k k' : string) (v : V)
    (d : list (string * V)) :
  k <> k' ->
  dict_find k (dict_set k' v d) = dict_find k d.
Proof.
  intros Hne. induction d as [| [k0 v0] d IH]; simpl.
  - destruct (String.eqb k k') eqn:Hk; [| reflexivity].
    apply String.eqb_eq in Hk. contradiction.
  - destruct (String.eqb k' k0) eqn:Hk0; simpl.
    + apply String.eqb_eq in Hk0. subst k0.
      destruct (String.eqb k k') eqn:Hk; [| reflexivity].
      apply String.eqb_eq in Hk. contradiction.
    + destruct (String.eqb k k0); [reflexivity | exact IH].
Qed.

Lemma sends_only_quiet (P : request -> Prop) (A : Type) (m : M A) :
  (forall w, sent (snd (m w)) = sent w) ->
  sends_only P m.
Proof.
  intros Hq w r w' Hrun. exists []. split; [| constructor].
  rewrite app_nil_r. specialize (Hq w). rewrite Hrun in Hq. exact Hq.
Qed.

Lemma sends_only_bind (P : request -> Prop) (A B : Type) (m : M A)
    (k : A -> M B) :
  sends_only P m ->
  (forall a, sends_only P (k a)) ->
  sends_only P (bind m k).
Proof.
  intros Hm Hk w r w' Hrun. unfold bind in Hrun.
  destruct (m w) as [[a | e |] w1] eqn:Hmw;
    destruct (Hm _ _ _ Hmw) as (l1 & Hs1 & Hl1).
  - destruct (Hk a _ _ _ Hrun) as (l2 & Hs2 & Hl2).
    exists (l1 ++ l2)%list. split.
    + rewrite Hs2, Hs1, app_assoc. reflexivity.
    + apply Forall_app. split; assumption.
  - inversion Hrun; subst. exists l1. split; assumption.
  - inversion Hrun; subst. exists l1. split; assumption.
Qed.

Lemma sends_only_try (P : request -> Prop) (A : Type) (m : M A)
    (h : exn -> M A) :
  sends_only P m ->
  (forall e, sends_only P (h e)) ->
  sends_only P (try_except m h).
Proof.
  intros Hm Hh w r w' Hrun. unfold try_except in Hrun.
  destruct (m w) as [[a | e |] w1] eqn:Hmw;
    destruct (Hm _ _ _ Hmw) as (l1 & Hs1 & Hl1).
  - inversion Hrun; subst. exists l1. split; assumption.
  - destruct (Hh e _ _ _ Hrun) as (l2 & Hs2 & Hl2).
    exists (l1 ++ l2)%list. split.
    + rewrite Hs2, Hs1, app_assoc. reflexivity.
    + apply Forall_app. split; assumption.
  - inversion Hrun; subst. exists l1. split; assumption.
Qed.

Lemma sends_only_send (P : request -> Prop) (rq : request) :
  P rq ->
  sends_only P (send E rq).
Proof.
  intros HP w r w' Hrun. exists [rq]. unfold send in Hrun.
  destruct (server E (List.length (sent w))); inversion Hrun; subst;
    (split; [reflexivity | constructor; [exact HP | constructor]]).
Qed.

Lemma sends_only_weaken (P Q : request -> Prop) (A : Type) (m : M A) :
  (forall rq, P rq -> Q rq) ->
  sends_only P m ->
  sends_only Q m.
Proof.
  intros HPQ Hm w r w' Hrun.
  destruct (Hm _ _ _ Hrun) as (l & Hs & Hl).
  exists l. split; [exact Hs |].
  eapply Forall_impl; [| exact Hl]. exact HPQ.
Qed.

Ltac quiet :=
  apply sends_only_quiet; intros ?; unfold_monad; simpl;
  repeat (match goal with
          | |- context [match ?x with _ => _ end] => destruct x
          end; simpl);
  reflexivity.

Ltac sends_step :=
  first
    [ apply sends_only_bind; [| intros ?]
    | apply sends_only_try; [| intros ?]
    | apply sends_only_send
    | match goal with
      | |- sends_only _ (if ?b then _ else _) => destruct b
      | |- sends_only _ (match ?x with _ => _ end) => destruct x
      end
    | solve [quiet] ].

Lemma refresh_sends_token_calls :
  sends_only (token_call E) (refresh_access_token E).
Proof.
  unfold refresh_access_token.
  repeat sends_step.
  split; reflexivity.
Qed.

Lemma get_valid_access_token_sends_token_calls :
  sends_only (token_call E) (get_valid_access_token E).
Proof.
  unfold get_valid_access_token.
  repeat sends_step.
  split; reflexivity.
Qed.

Lemma make_request_sends (endpoint : string) (params : dict) :
  sends_only
    (fun rq => token_call E rq
               \/ (req_method rq = GET
                   /\ req_url rq = WHOOP_API_BASE_URL (cfg E) ++ endpoint
                   /\ req_payload rq = params))
    (_make_request E endpoint params).
Proof.
  unfold _make_request.
  apply sends_only_bind.
  - eapply sends_only_weaken; [| apply get_valid_access_token_sends_token_calls].
    intros rq H. left. exact H.
  - intros tok. repeat sends_step.
    right. repeat split; reflexivity.
Qed.

Lemma paginate_loop_sends (endpoint : string) (params0 : dict) :
  forall (fuel : nat) (params : dict) (acc : list json) (tok : json),
    (forall k, k <> "nextToken" -> dict_find k params = dict_find k params0) ->
    sends_only (fun rq => token_call E rq \/ page_call E endpoint params0 rq)
               (paginate_loop E fuel endpoint params acc tok).
Proof.
  induction fuel as [| fuel IH]; intros params acc tok Hagree.
  - quiet.
  - simpl paginate_loop.
    set (params' := if truthy tok then dict_set "nextToken" tok params
                    else params).
    assert (Hagree' : forall k, k <> "nextToken" ->
                                dict_find k params' = dict_find k params0).
    { intros k Hk. unfold params'. destruct (truthy tok).
      - rewrite dict_find_set_other by exact Hk. apply Hagree. exact Hk.
      - apply Hagree. exact Hk. }
    apply sends_only_bind.
    + eapply sends_only_weaken; [| apply make_request_sends].
      intros rq [H | (Hm & Hu & Hp)]; [left; exact H |].
      right. split; [exact Hm |]. split; [exact Hu |].
      rewrite Hp. exact Hagree'.
    + intros resp. repeat sends_step; apply IH; exact Hagree'.
Qed.

(** X6. Whatever the peer answers and however the call ends, every
    request [_paginate_request] sends is a call of the token endpoint (a
    refresh) or a GET of the endpoint whose [limit] is the smaller of the
    limit asked for and 25 and whose other parameters, the cursor apart,
    are the caller's. *)
Theorem paginate_clamps_the_page_size
    (fuel : nat) (endpoint : string) (params : option dict) (limit : Z) :
  sends_only
    (fun rq =>
       token_call E rq
       \/ (req_method rq = GET
           /\ req_url rq = WHOOP_API_BASE_URL (cfg E) ++ endpoint
           /\ dict_find "limit" (req_payload rq)
              = Some (JNum (Z.min limit 25))
           /\ forall k, k <> "limit" -> k <> "nextToken" ->
                        dict_find k (req_payload rq)
                        = dict_find k (match params with
                                       | Some d => d
                                       | None => []
                                       end)))
    (_paginate_request E fuel endpoint params limit).
Proof.
  unfold _paginate_request.
  eapply sends_only_weaken; [| apply paginate_loop_sends; intros k _; reflexivity].
  intros rq [H | (Hm & Hu & Hp)]; [left; exact H |].
  right. split; [exact Hm |]. split; [exact Hu |]. split.
  - rewrite Hp by discriminate. apply dict_find_set_same.
  - intros k Hk Hn. rewrite Hp by exact Hn.
    apply dict_find_set_other. exact Hk.
Qed.

Lemma health_fetch_sends (fuel : nat) (start end_ endpoint : string) :
  In endpoint [ "/v2/recovery"; "/v2/activity/sleep"; "/v2/cycle";
                "/v2/activity/workout" ] ->
  sends_only
    (fun rq => token_call E rq \/ health_call E start end_ rq)
    (_paginate_request E fuel endpoint
       (date_range (start ++ "T00:00:00.000Z") (end_ ++ "T23:59:59.999Z"))
       25).
Proof.
  intros Hin. unfold _paginate_request.
  eapply sends_only_weaken; [| apply paginate_loop_sends; intros k _; reflexivity].
  intros rq [H | (Hm & Hu & Hp)]; [left; exact H |].
  right. split; [exact Hm |]. split.
  - rewrite Hu.
    apply (in_map (fun endpoint => WHOOP_API_BASE_URL (cfg E) ++ endpoint)).
    exact Hin.
  - repeat split; rewrite Hp by discriminate; reflexivity.
Qed.

(** X7. Whatever the peer answers, every request [get_all_health_data]
    sends is a call of the token endpoint (a refresh) or a GET of one of
    the four collections that asks for the whole days: [start] is the
    start date at 00:00:00.000Z, [end] the end date at 23:59:59.999Z, and
    [limit] is 25. *)
Theorem get_all_health_data_asks_for_whole_days
    (fuel : nat) (start end_ : string) :
  sends_only
    (fun rq => token_call E rq \/ health_call E start end_ rq)
    (get_all_health_data E fuel start end_).
Proof.
  unfold get_all_health_data, fetch_into, get_recovery_data, get_sleep_data,
    get_cycle_data, get_workout_data.
  repeat first
    [ apply sends_only_bind; [| intros ?]
    | apply sends_only_try; [| intros ?]
    | apply health_fetch_sends; simpl; tauto
    | solve [quiet] ].
Qed.



(** X9. A request made with a token within five minutes of its expiry,
    when the refresh succeeds, puts two calls on the wire: the refresh
    grant, then the GET carrying the renewed access token.  The token that
    was stored is not sent to the API. *)
Theorem stale_token_is_renewed_before_the_request
    (endpoint : string) (params : dict) (w w1 w' : world) (s : string)
    (expiry : Z) (d : dict) (r : outcome json) :
  truthy (dict_get (tokens w) "access_token") = true ->
  dict_find "expires_at" (tokens w) = Some (JStr s) ->
  fromisoformat E s = Some expiry ->
  valid_datetime (expiry - timedelta_minutes 5) ->
  clock E (clock_reads w) >= expiry - timedelta_minutes 5 ->
  refresh_access_token E (tick w) = (Ok d, w1) ->
  _make_request E endpoint params w = (r, w') ->
  exists renewed_token,
    dict_find "access_token" d = Some renewed_token
    /\ sent w'
       = (sent w
          ++ [ refresh_request E (dict_get (tokens w) "refresh_token");
               api_request E endpoint renewed_token params ])%list.
Proof.
  intros Ht He Hp Hv Hc Hr Hrun.
  pose proof (@get_valid_access_token_stale E w s expiry Ht He Hp Hv Hc) as Hg.
  unfold bind at 1 in Hg. rewrite Hr in Hg.
  apply refresh_ok_inv in Hr.
  destruct Hr as (resp & td & tok & delta & _ & _ & _ & _ & _ & _ & _
                  & Hd & Hw1).
  exists tok. split; [subst d; reflexivity |].
  assert (Hg' : get_valid_access_token E w = (Ok tok, w1)).
  { rewrite Hg. subst w1 d. reflexivity. }
  unfold _make_request in Hrun. unfold bind at 1 in Hrun.
  rewrite Hg' in Hrun. unfold_monad. simpl in Hrun.
  assert (Hsent : sent w1
                  = (sent w ++ [refresh_request E
                                  (dict_get (tokens w) "refresh_token")])%list).
  { subst w1. reflexivity. }
  destruct (server E (List.length (sent w1))) as [msg | resp'];
    simpl in Hrun.
  - inversion Hrun; subst r w'. simpl. rewrite Hsent.
    rewrite <- app_assoc. reflexivity.
  - destruct (raise_for_status resp'); simpl in Hrun;
      inversion Hrun; subst r w'; simpl; rewrite Hsent;
      rewrite <- app_assoc; reflexivity.
Qed.

(** The loop over pages that all carry a continuation token: after them
    it is still running, with their records collected. *)
Lemma paginate_loop_open_pages (endpoint : string) (pages : list (list json)) :
  forall (fuel : nat) (params : dict) (acc : list json) (tok : json)
         (w : world),
    stays_fresh E (tokens w) ->
    serves_open E (List.length (sent w)) pages ->
    exists params' tok' w',
      paginate_loop E (List.length pages + fuel) endpoint params acc tok w
      = paginate_loop E fuel endpoint params' (acc ++ List.concat pages)%list
          tok' w'
      /\ tokens w' = tokens w
      /\ List.length (sent w') = (List.length (sent w) + List.length pages)%nat.
Proof.
  induction pages as [| records rest IH]; intros fuel params acc tok w Hfresh Hserves.
  - exists params, tok, w. simpl. rewrite app_nil_r.
    repeat split. lia.
  - destruct Hserves as (r & next & Hs & (Hst & Hrec & d & Hb & Hd & Hn) & Hnext & Hrest).
    cbn [List.length Nat.add]. simpl paginate_loop.
    set (params1 := if truthy tok then dict_set "nextToken" tok params
                    else params).
    unfold bind at 1.
    rewrite (@make_request_fresh E endpoint params1 w r Hfresh Hs).
    rewrite Hst. unfold response_json. rewrite Hb.
    unfold bind at 1. unfold lift at 1, py_get at 1, dict_get_or.
    rewrite Hd.
    assert (Htr : truthy (JArr records) = true).
    { destruct records; [contradiction | reflexivity]. }
    rewrite Htr. cbn [negb].
    unfold bind at 1. unfold lift at 1, py_iter.
    unfold bind at 1. unfold lift at 1, py_get.
    fold (dict_get d "next_token"). rewrite Hn. rewrite Hnext. cbn [negb].
    match goal with
    | |- context [paginate_loop E _ endpoint params1 ?a next ?w1] =>
        destruct (IH fuel params1 a next w1) as (params' & tok' & w' & Hrun & Htok & Hlen)
    end.
    + exact Hfresh.
    + simpl sent. rewrite length_app. simpl.
      replace (List.length (sent w) + 1)%nat with (S (List.length (sent w)))
        by lia.
      exact Hrest.
    + exists params', tok', w'. rewrite Hrun.
      split; [simpl; rewrite <- app_assoc; reflexivity |].
      split; [exact Htok |].
      rewrite Hlen. simpl. rewrite length_app. simpl. lia.
Qed.

Lemma make_request_fails (endpoint : string) (params : dict) (w : world) :
  stays_fresh E (tokens w) ->
  fails_request (server E (List.length (sent w))) ->
  exists e w',
    _make_request E endpoint params w = (Raise e, w')
    /\ tokens w' = tokens w
    /\ List.length (sent w') = S (List.length (sent w)).
Proof.
  intros Hfresh Hfail.
  destruct (server E (List.length (sent w))) as [msg | resp] eqn:Hs.
  - destruct Hfresh as (Ht & s & expiry & He & Hp & Hv & Hc).
    unfold _make_request. unfold bind at 1.
    rewrite (@get_valid_access_token_fresh E w s expiry Ht He Hp Hv (Hc _)).
    unfold_monad. simpl. rewrite Hs.
    do 2 eexists. split; [reflexivity |]. simpl.
    split; [reflexivity |]. rewrite length_app. simpl. lia.
  - rewrite (@make_request_fresh E endpoint params w resp Hfresh Hs).
    simpl in Hfail. unfold raise_for_status.
    replace ((400 <=? status_code resp) && (status_code resp <? 600))
      with true by (symmetry; apply andb_true_iff; split;
                    [apply Z.leb_le | apply Z.ltb_lt]; lia).
    do 2 eexists. split; [reflexivity |]. simpl.
    split; [reflexivity |]. rewrite length_app. simpl. lia.
Qed.

(** X10. A fetch gives no partial result: when the pages served so far
    all announce a next page and the request for the next one fails (no
    answer, or an error status), [_paginate_request] raises, and the
    records of the pages it had fetched are not returned. *)
Theorem paginate_gives_no_partial_result
    (endpoint : string) (params : option dict) (limit : Z)
    (pages : list (list json)) (fuel : nat) (w : world) :
  stays_fresh E (tokens w) ->
  serves_open E (List.length (sent w)) pages ->
  fails_request (server E (List.length (sent w) + List.length pages)) ->
  (List.length pages < fuel)%nat ->
  exists e w',
    _paginate_request E fuel endpoint params limit w = (Raise e, w')
    /\ List.length (sent w') = S (List.length (sent w) + List.length pages).
Proof.
  intros Hfresh Hserves Hfail Hfuel.
  unfold _paginate_request.
  replace fuel with (List.length pages + S (fuel - S (List.length pages)))%nat
    by lia.
  match goal with
  | |- context [paginate_loop E _ endpoint ?p [] JNull w] =>
      destruct (@paginate_loop_open_pages endpoint pages
                  (S (fuel - S (List.length pages))) p [] JNull w
                  Hfresh Hserves)
        as (params' & tok' & w1 & Hrun & Htok & Hlen)
  end.
  rewrite Hrun. simpl paginate_loop.
  set (params1 := if truthy tok' then dict_set "nextToken" tok' params'
                  else params').
  assert (Hfresh1 : stays_fresh E (tokens w1)) by (rewrite Htok; exact Hfresh).
  rewrite <- Hlen in Hfail.
  destruct (make_request_fails endpoint params1 w1 Hfresh1 Hfail)
    as (e & w' & Hreq & _ & Hsent).
  unfold bind at 1. rewrite Hreq.
  exists e, w'. split; [reflexivity |]. rewrite Hsent, Hlen. reflexivity.
Qed.

(** X11. Signed out, [get_all_health_data] does not raise and sends
    nothing: it returns the four empty lists, as if the account had no
    data. *)
Theorem get_all_health_data_signed_out_is_silent
    (fuel : nat) (start end_ : string) (w : world) :
  truthy (dict_get (tokens w) "access_token") = false ->
  get_all_health_data E (S fuel) start end_ w
  = (Ok [ ("recovery", JArr []); ("sleep", JArr []);
          ("cycles", JArr []); ("workouts", JArr []) ], w).
Proof.
  intros Ht.
  assert (Hfetch : forall endpoint params,
             _paginate_request E (S fuel) endpoint params 25 w
             = (Raise NOT_AUTHENTICATED, w)).
  { intros endpoint params. unfold _paginate_request. simpl paginate_loop.
    unfold bind at 1. unfold _make_request. unfold bind at 1.
    unfold get_valid_access_token. unfold bind at 1.
    unfold get_tokens at 1. rewrite Ht. reflexivity. }
  unfold get_all_health_data, fetch_into, get_recovery_data, get_sleep_data,
    get_cycle_data, get_workout_data.
  unfold bind, try_except, ret.
  repeat (rewrite Hfetch; cbv beta iota).
  reflexivity.
Qed.

(** X12. An answer that is the empty object gives no record: the fetch
    returns the empty list after its one request. *)
Theorem paginate_empty_object_gives_nothing
    (fuel : nat) (endpoint : string) (params : option dict) (limit : Z)
    (w : world) (resp : response) :
  stays_fresh E (tokens w) ->
  server E (List.length (sent w)) = Answer resp ->
  raise_for_status resp = Ok tt ->
  body resp = Some (JObj []) ->
  exists w',
    _paginate_request E (S fuel) endpoint params limit w = (Ok [], w')
    /\ List.length (sent w') = S (List.length (sent w)).
Proof.
  intros Hfresh Hs Hst Hb.
  unfold _paginate_request. simpl paginate_loop.
  unfold bind at 1.
  rewrite (@make_request_fresh E endpoint _ w resp Hfresh Hs).
  rewrite Hst. unfold response_json. rewrite Hb.
  unfold bind, lift, py_get, ret. simpl.
  eexists. split; [reflexivity |].
  simpl. rewrite length_app. simpl. lia.
Qed.

(** X18. A page whose [records] array is empty, which is what a range
    without data gives, is not read as "no records": the fetch returns a
    list of one element, the page object itself, and stops. *)
Theorem empty_page_comes_back_as_a_record
    (fuel : nat) (endpoint : string) (params : option dict) (limit : Z)
    (w : world) (resp : response) (d : dict) :
  stays_fresh E (tokens w) ->
  server E (List.length (sent w)) = Answer resp ->
  raise_for_status resp = Ok tt ->
  body resp = Some (JObj d) ->
  dict_find "records" d = Some (JArr []) ->
  exists w',
    _paginate_request E (S fuel) endpoint params limit w
    = (Ok [JObj d], w')
    /\ List.length (sent w') = S (List.length (sent w)).
Proof.
  intros Hfresh Hs Hst Hb Hrec.
  apply paginate_bare_object_single_record with (resp := resp);
    try assumption.
  - intros Hd. subst d. discriminate Hrec.
  - unfold dict_get_or. rewrite Hrec. reflexivity.
Qed.

(** *** The routes of auth_server.py *)

Lemma exchange_sends_once (code : json) (w w' : world) (r : outcome dict) :
  exchange_code_for_token E code w = (r, w') ->
  sent w' = (sent w ++ [exchange_request E code])%list.
Proof.
  unfold exchange_code_for_token. unfold_monad.
  unfold subscript, response_json, py_get, py_subscript, subscript,
    datetime_add.
  intros H. simpl in H.
  repeat (run_step; simpl in *; try discriminate); reflexivity.
Qed.

(** Past the state check, without provider error and with a code, the
    callback exchanges the code. *)
Lemma callback_passed (args session : list (string * string)) (w : world)
    (code : string) :
  opt_str_eqb (dict_find "state" args) (dict_find "oauth_state" session)
  = true ->
  truthy_str (dict_find "error" args) = false ->
  dict_find "code" args = Some code ->
  code <> "" ->
  exists r w',
    callback E args session w = (Ok r, w')
    /\ sent w' = (sent w ++ [exchange_request E (JStr code)])%list.
Proof.
  intros Hstate Herr Hcode Hne.
  unfold callback. rewrite Hstate, Herr, Hcode. cbn [negb truthy_str].
  assert (Hc : String.eqb code "" = false).
  { destruct (String.eqb code "") eqn:Heq; [| reflexivity].
    apply String.eqb_eq in Heq. contradiction. }
  rewrite Hc. cbn [negb json_of_opt].
  unfold try_except, bind, ret.
  destruct (exchange_code_for_token E (JStr code) w) as [[d | e |] w1] eqn:Hx.
  - do 2 eexists. split; [reflexivity |].
    apply (exchange_sends_once _ _ Hx).
  - do 2 eexists. split; [reflexivity |].
    apply (exchange_sends_once _ _ Hx).
  - exfalso. apply (@exchange_terminates E (JStr code) w).
    rewrite Hx. reflexivity.
Qed.


(** X14. The state check compares; it does not require a state.  A
    callback without [state], in a session that holds no [oauth_state],
    passes the check, and its code is exchanged. *)
Theorem callback_without_any_state_is_exchanged
    (args session : list (string * string)) (w : world) (code : string) :
  dict_find "state" args = None ->
  dict_find "oauth_state" session = None ->
  truthy_str (dict_find "error" args) = false ->
  dict_find "code" args = Some code ->
  code <> "" ->
  exists r w',
    callback E args session w = (Ok r, w')
    /\ sent w' = (sent w ++ [exchange_request E (JStr code)])%list.
Proof.
  intros Hs He Herr Hcode Hne.
  apply callback_passed; try assumption.
  rewrite Hs, He. reflexivity.
Qed.

(** X15. [/logout] always redirects to [/], whatever the revocation call
    met, with the token set empty, the token file removed and the session
    empty; a callback that then arrives with a state is refused. *)
Theorem logout_forgets_everything
    (session : list (string * string)) (w : world) :
  exists w',
    logout E session w = (Ok (Redirect "/", []), w')
    /\ tokens w' = []
    /\ token_file w' = None
    /\ forall args state w'',
        dict_find "state" args = Some state ->
        callback E args [] w'' = (Ok INVALID_STATE, w'').
Proof.
  destruct (revoke_access_cleared E w) as (w' & Hrun & Ht & Hf).
  exists w'. unfold logout, bind, ret. rewrite Hrun.
  split; [reflexivity |]. split; [exact Ht |]. split; [exact Hf |].
  intros args state w'' Hs. unfold callback. rewrite Hs. reflexivity.
Qed.

(** X16. [/login] keeps in the session the state it puts at the end of
    the authorization URL, in place of any state kept before; the
    callback refuses every other state, also the one of an earlier login,
    and lets this one past the check. *)
Theorem login_state_is_the_one_callback_accepts
    (auth_url : string) (scopes : list string) (token_urlsafe : nat -> string)
    (session : list (string * string)) :
  let state := token_urlsafe 8%nat in
  let url := fst (login E auth_url scopes token_urlsafe session) in
  let session' := snd (login E auth_url scopes token_urlsafe session) in
  last url (Lit "") = Fmt (JStr state)
  /\ dict_find "oauth_state" session' = Some state
  /\ (forall args w,
      dict_find "state" args <> Some state ->
      callback E args session' w = (Ok INVALID_STATE, w))
  /\ (forall args w code,
      dict_find "state" args = Some state ->
      truthy_str (dict_find "error" args) = false ->
      dict_find "code" args = Some code ->
      code <> "" ->
      exists r w',
        callback E args session' w = (Ok r, w')
        /\ sent w' = (sent w ++ [exchange_request E (JStr code)])%list).
Proof.
  intros state url session'.
  assert (Hkept : dict_find "oauth_state" session' = Some state).
  { unfold session', login. simpl. apply dict_find_set_same. }
  split; [reflexivity |]. split; [exact Hkept |]. split.
  - intros args w Hne. unfold callback. rewrite Hkept.
    destruct (opt_str_eqb (dict_find "state" args) (Some state)) eqn:Heq.
    + apply opt_str_eqb_eq in Heq. contradiction.
    + reflexivity.
  - intros args w code Hs Herr Hcode Hne.
    apply callback_passed; try assumption.
    rewrite Hs, Hkept. apply opt_str_eqb_eq. reflexivity.
Qed.



End MoreProperties.

(** * The further properties on the fixtures *)

Lemma exchange_replaces_token_set_witness :
  exists resp token_data delta,
    json_answer 200 grant_omitting_refresh = Answer resp
    /\ body resp = Some (JObj token_data)
    /\ tokens (exchanged granted_without_refresh) = granted_without_refresh
    /\ token_file (exchanged granted_without_refresh)
       = Some (JObj granted_without_refresh)
    /\ sent (exchanged granted_without_refresh) = [exchange_sent]
    /\ keys granted_without_refresh
       = ["access_token"; "refresh_token"; "expires_at"; "token_type"]
    /\ dict_find "access_token" granted_without_refresh
       = dict_find "access_token" token_data
    /\ timedelta_seconds (dict_get_or token_data "expires_in" (JNum 3600))
       = Ok delta
    /\ dict_find "expires_at" granted_without_refresh
       = Some (JStr (demo_isoformat (EARLY + delta)))
    /\ dict_find "token_type" granted_without_refresh
       = Some (dict_get_or token_data "token_type" (JStr "Bearer"))
    /\ dict_find "refresh_token" granted_without_refresh
       = Some (dict_get token_data "refresh_token").
Proof.
  exact (@exchange_replaces_token_set
           (demo_env (peer_granting grant_omitting_refresh) EARLY)
           (JStr "c0de") signed_in (exchanged granted_without_refresh)
           granted_without_refresh eq_refl).
Defined.

Lemma grant_without_refresh_token_cannot_renew_witness :
  is_authenticated (exchanged granted_without_refresh)
  = (Ok false, exchanged granted_without_refresh)
  /\ refresh_access_token
       (demo_env (peer_granting grant_omitting_refresh) EARLY)
       (exchanged granted_without_refresh)
     = (Raise NO_REFRESH_TOKEN, exchanged granted_without_refresh).
Proof.
  exact (@grant_without_refresh_token_cannot_renew
           (demo_env (peer_granting grant_omitting_refresh) EARLY)
           (JStr "c0de") signed_in (exchanged granted_without_refresh)
           granted_without_refresh
           (Response 200 [] (Some grant_omitting_refresh))
           [ ("access_token", JStr "AT1"); ("expires_in", JNum 3600) ]
           eq_refl eq_refl eq_refl eq_refl).
Defined.

Lemma unreadable_expiry_fails_before_any_request_witness :
  (get_valid_access_token (demo_env peer_down EARLY)
     (holding tokens_without_expiry)
   = (Raise (KeyError "expires_at"), holding tokens_without_expiry)
   /\ forall endpoint params,
       _make_request (demo_env peer_down EARLY) endpoint params
         (holding tokens_without_expiry)
       = (Raise (KeyError "expires_at"), holding tokens_without_expiry))
  /\ exists msg,
      get_valid_access_token (demo_env peer_down EARLY)
        (holding tokens_garbled_expiry)
      = (Raise (ValueError msg), holding tokens_garbled_expiry)
      /\ forall endpoint params,
          _make_request (demo_env peer_down EARLY) endpoint params
            (holding tokens_garbled_expiry)
          = (Raise (ValueError msg), holding tokens_garbled_expiry).
Proof.
  split.
  - exact (proj1 (@unreadable_expiry_fails_before_any_request
                    (demo_env peer_down EARLY)
                    (holding tokens_without_expiry) eq_refl) eq_refl).
  - exact (proj2 (@unreadable_expiry_fails_before_any_request
                    (demo_env peer_down EARLY)
                    (holding tokens_garbled_expiry) eq_refl)
             "tomorrow" eq_refl eq_refl).
Defined.

Lemma revoked_is_signed_out_witness :
  is_authenticated (snd (revoke_access (demo_env peer_down EARLY) signed_in))
  = (Ok false, snd (revoke_access (demo_env peer_down EARLY) signed_in))
  /\ get_valid_access_token (demo_env peer_down EARLY)
       (snd (revoke_access (demo_env peer_down EARLY) signed_in))
     = (Raise NOT_AUTHENTICATED,
        snd (revoke_access (demo_env peer_down EARLY) signed_in))
  /\ forall endpoint params,
      _make_request (demo_env peer_down EARLY) endpoint params
        (snd (revoke_access (demo_env peer_down EARLY) signed_in))
      = (Raise NOT_AUTHENTICATED,
         snd (revoke_access (demo_env peer_down EARLY) signed_in)).
Proof.
  exact (@revoked_is_signed_out (demo_env peer_down EARLY) signed_in
           (snd (revoke_access (demo_env peer_down EARLY) signed_in))
           eq_refl).
Defined.

Lemma writers_save_what_they_hold_witness :
  _load_tokens (exchanged granted_without_refresh)
  = (Ok (JObj granted_without_refresh), exchanged granted_without_refresh)
  /\ _load_tokens (renewed renewed_tokens)
     = (Ok (JObj renewed_tokens), renewed renewed_tokens).
Proof.
  split.
  - exact (proj1 (@writers_save_what_they_hold
                    (demo_env (peer_granting grant_omitting_refresh) EARLY)
                    signed_in (exchanged granted_without_refresh))
             (JStr "c0de") granted_without_refresh eq_refl).
  - exact (proj1 (proj2 (@writers_save_what_they_hold
                    (demo_env (peer_granting grant_omitting_refresh) LATE)
                    signed_in (renewed renewed_tokens)))
             renewed_tokens eq_refl).
Defined.


(** At 12:58 the request goes out with AT1, after the refresh. *)
Lemma stale_token_is_renewed_before_the_request_witness :
  exists renewed_token,
    dict_find "access_token" renewed_tokens = Some renewed_token
    /\ sent (snd (_make_request
                    (demo_env (peer_granting grant_omitting_refresh) LATE)
                    "/v2/recovery" [] signed_in))
       = [ refresh_sent;
           api_request (demo_env (peer_granting grant_omitting_refresh) LATE)
             "/v2/recovery" renewed_token [] ].
Proof.
  refine (@stale_token_is_renewed_before_the_request
           (demo_env (peer_granting grant_omitting_refresh) LATE)
           "/v2/recovery" [] signed_in renewed_for_request
           (snd (_make_request
                   (demo_env (peer_granting grant_omitting_refresh) LATE)
                   "/v2/recovery" [] signed_in))
           "2026-11-03T13:00:00" (NOON + 60 * 60 * MICROSECONDS)
           renewed_tokens
           (fst (_make_request
                   (demo_env (peer_granting grant_omitting_refresh) LATE)
                   "/v2/recovery" [] signed_in))
           eq_refl eq_refl eq_refl _ _ eq_refl eq_refl).
  - split; discriminate.
  - discriminate.
Defined.

(** The first page is fetched, the second request gets a 500: nothing is
    returned. *)
Lemma paginate_gives_no_partial_result_witness :
  exists e w',
    _paginate_request (demo_env peer_failing_second_page EARLY) 5
      "/v2/recovery" recovery_range 25 signed_in
    = (Raise e, w')
    /\ List.length (sent w') = 2%nat.
Proof.
  refine (@paginate_gives_no_partial_result
            (demo_env peer_failing_second_page EARLY) "/v2/recovery"
            recovery_range 25 [numbered 0 25] 5 signed_in _ _ _ _).
  - apply demo_tokens_stay_fresh.
  - simpl.
    exists (Response 200 [] (Some (page_of (numbered 0 25) (Some "page-2")))),
           (JStr "page-2").
    split; [reflexivity |].
    split; [split; [reflexivity | split; [discriminate |]];
            eexists; split; [reflexivity | split; reflexivity] |].
    split; [reflexivity | exact I].
  - simpl. split; [discriminate | reflexivity].
  - simpl. repeat constructor.
Defined.

Lemma get_all_health_data_signed_out_is_silent_witness :
  get_all_health_data (demo_env peer_down EARLY) 1 "2026-01-01" "2026-02-10"
    signed_out
  = (Ok [ ("recovery", JArr []); ("sleep", JArr []);
          ("cycles", JArr []); ("workouts", JArr []) ], signed_out).
Proof.
  exact (@get_all_health_data_signed_out_is_silent
           (demo_env peer_down EARLY) 0 "2026-01-01" "2026-02-10" signed_out
           eq_refl).
Defined.

Lemma paginate_empty_object_gives_nothing_witness :
  exists w',
    _paginate_request (demo_env peer_empty_object EARLY) 1 "/v2/recovery"
      recovery_range 25 signed_in
    = (Ok [], w')
    /\ List.length (sent w') = 1%nat.
Proof.
  exact (@paginate_empty_object_gives_nothing
           (demo_env peer_empty_object EARLY) 0 "/v2/recovery"
           recovery_range 25 signed_in (Response 200 [] (Some (JObj [])))
           (demo_tokens_stay_fresh peer_empty_object)
           eq_refl eq_refl eq_refl).
Defined.

(** No results in the range: the empty page itself comes back as the one
    record. *)
Lemma empty_page_comes_back_as_a_record_witness :
  exists w',
    _paginate_request (demo_env peer_empty_page EARLY) 1 "/v2/recovery"
      recovery_range 25 signed_in
    = (Ok [JObj [ ("records", JArr []); ("next_token", JNull) ]], w')
    /\ List.length (sent w') = 1%nat.
Proof.
  exact (@empty_page_comes_back_as_a_record
           (demo_env peer_empty_page EARLY) 0 "/v2/recovery"
           recovery_range 25 signed_in
           (Response 200 [] (Some (JObj [ ("records", JArr []);
                                          ("next_token", JNull) ])))
           [ ("records", JArr []); ("next_token", JNull) ]
           (demo_tokens_stay_fresh peer_empty_page)
           eq_refl eq_refl eq_refl eq_refl).
Defined.

(** A callback with a code and no state, in a session without state. *)
Lemma callback_without_any_state_is_exchanged_witness :
  exists r w',
    callback (demo_env (peer_granting grant_rotating_refresh) EARLY)
      [ ("code", "c0de") ] [] signed_out
    = (Ok r, w')
    /\ sent w' = [exchange_sent].
Proof.
  refine (@callback_without_any_state_is_exchanged
            (demo_env (peer_granting grant_rotating_refresh) EARLY)
            [ ("code", "c0de") ] [] signed_out "c0de"
            eq_refl eq_refl eq_refl eq_refl _).
  discriminate.
Defined.

(** The three pages asked with a limit of 100: every request carries 25. *)
Lemma paginate_clamps_the_page_size_witness :
  exists l,
    sent (snd (_paginate_request (demo_env peer_three_pages EARLY) 3
                 "/v2/recovery" recovery_range 100 signed_in))
    = ([] ++ l)%list
    /\ Forall
         (fun rq =>
            token_call (demo_env peer_three_pages EARLY) rq
            \/ (req_method rq = GET
                /\ req_url rq
                   = "https://api.prod.whoop.com/developer" ++ "/v2/recovery"
                /\ dict_find "limit" (req_payload rq)
                   = Some (JNum (Z.min 100 25))
                /\ forall k, k <> "limit" -> k <> "nextToken" ->
                             dict_find k (req_payload rq)
                             = dict_find k
                                 [ ("start", JStr "2026-01-01T00:00:00.000Z");
                                   ("end", JStr "2026-02-10T23:59:59.999Z") ]))
         l.
Proof.
  exact (@paginate_clamps_the_page_size (demo_env peer_three_pages EARLY) 3
           "/v2/recovery" recovery_range 100 signed_in
           (fst (_paginate_request (demo_env peer_three_pages EARLY) 3
                   "/v2/recovery" recovery_range 100 signed_in))
           (snd (_paginate_request (demo_env peer_three_pages EARLY) 3
                   "/v2/recovery" recovery_range 100 signed_in))
           eq_refl).
Defined.

Lemma get_all_health_data_asks_for_whole_days_witness :
  exists l,
    sent (snd (get_all_health_data (demo_env peer_sleep_failing EARLY) 1
                 "2026-01-01" "2026-02-10" signed_in))
    = ([] ++ l)%list
    /\ Forall
         (fun rq =>
            token_call (demo_env peer_sleep_failing EARLY) rq
            \/ health_call (demo_env peer_sleep_failing EARLY)
                 "2026-01-01" "2026-02-10" rq)
         l.
Proof.
  exact (@get_all_health_data_asks_for_whole_days
           (demo_env peer_sleep_failing EARLY) 1 "2026-01-01" "2026-02-10"
           signed_in
           (fst (get_all_health_data (demo_env peer_sleep_failing EARLY) 1
                   "2026-01-01" "2026-02-10" signed_in))
           (snd (get_all_health_data (demo_env peer_sleep_failing EARLY) 1
                   "2026-01-01" "2026-02-10" signed_in))
           eq_refl).
Defined.
